(** * swat.utils.testing: a shallow embedding and its specification

    The development follows [swat/utils/testing.py].  Python text is modelled
    as [string] (a sequence of ASCII characters), [os.environ] as a finite
    map from names to values, and everything the module asks of the
    operating system (the file system, the password database, the Lua
    interpreters) as fields of a [World] record.  Functions that touch the
    world live in a small reader/writer/error monad [M] whose log records
    every file-system access. *)

From Stdlib Require Import ZArith Ascii String List Bool Lia.
From stdpp Require Import base option list strings gmap sorting pretty.

Local Open Scope string_scope.
Local Open Scope Z_scope.

(** ** Python built-ins on text *)

Module Py.

(** Characters for which [str.isspace] holds, among ASCII characters. *)
Definition isspace (c : ascii) : bool :=
  let n := nat_of_ascii c in
  ((9 <=? n) && (n <=? 13) || (28 <=? n) && (n <=? 32))%nat.

(** Characters the C library's [isspace] accepts: what [int] skips around
    a number and what [bytes.strip] removes. *)
Definition c_isspace (c : ascii) : bool :=
  let n := nat_of_ascii c in
  ((9 <=? n) && (n <=? 13) || (n =? 32))%nat.

Definition isdigit (c : ascii) : bool :=
  let n := nat_of_ascii c in ((48 <=? n) && (n <=? 57))%nat.

Definition digit_value (c : ascii) : Z := Z.of_nat (nat_of_ascii c) - 48.

Definition isalpha (c : ascii) : bool :=
  let n := nat_of_ascii c in
  ((65 <=? n) && (n <=? 90) || (97 <=? n) && (n <=? 122))%nat.

(** [\w] of the [re] module, among ASCII characters. *)
Definition isword (c : ascii) : bool :=
  isalpha c || isdigit c || Ascii.eqb c "_".

Definition chars (s : string) : list ascii := list_ascii_of_string s.
Definition text (l : list ascii) : string := string_of_list_ascii l.

Fixpoint lstrip_chars (p : ascii -> bool) (l : list ascii) : list ascii :=
  match l with
  | c :: l' => if p c then lstrip_chars p l' else l
  | [] => []
  end.

Definition rstrip_chars (p : ascii -> bool) (l : list ascii) : list ascii :=
  rev (lstrip_chars p (rev l)).

(** [b.strip()] on the bytes a subprocess printed. *)
Definition bytes_strip (s : string) : string :=
  text (rstrip_chars c_isspace (lstrip_chars c_isspace (chars s))).

(** [s.rstrip(c)] for a one-character argument. *)
Definition rstrip_char (c : ascii) (s : string) : string :=
  text (rstrip_chars (Ascii.eqb c) (chars s)).

(** [p in s] for strings: [p] occurs in [s] as a substring. *)
Fixpoint contains (p s : string) : bool :=
  String.prefix p s ||
  match s with
  | String _ s' => contains p s'
  | EmptyString => false
  end.

(** Decimal digits with single underscores allowed between digits, as
    [int] and integer literals take them. *)
Fixpoint digits_value (after_digit : bool) (acc : Z) (l : list ascii)
  : option Z :=
  match l with
  | [] => if after_digit then Some acc else None
  | c :: l' =>
      if isdigit c then digits_value true (10 * acc + digit_value c) l'
      else if Ascii.eqb c "_" then
        if after_digit then digits_value false acc l' else None
      else None
  end.

(** [int(s)] in base ten: surrounding white space is dropped, one sign is
    allowed. [None] stands for [ValueError]. *)
Definition int_of_str (s : string) : option Z :=
  match rstrip_chars c_isspace (lstrip_chars c_isspace (chars s)) with
  | c :: l =>
      if Ascii.eqb c "-" then Z.opp <$> digits_value false 0 l
      else if Ascii.eqb c "+" then digits_value false 0 l
      else digits_value false 0 (c :: l)
  | [] => None
  end.

(** [str(n)] for an integer. *)
Definition str_of_int (n : Z) : string := pretty n.

(** Values that flow through the configuration reader. *)
Inductive value :=
| VInt (n : Z)
| VStr (s : string)
| VNone.

(** Truth value of an object in a condition. *)
Definition truthy (v : value) : bool :=
  match v with
  | VInt n => negb (n =? 0)
  | VStr s => negb (String.eqb s "")
  | VNone => false
  end.

(** [str(v)] *)
Definition str (v : value) : string :=
  match v with
  | VInt n => str_of_int n
  | VStr s => s
  | VNone => "None"
  end.

Inductive exn :=
| ValueError
| TypeError
| AttributeError (name : string)
| NameError (name : string)
| OSError
| AssertionError
| SystemExit (code : Z)
| OtherError (what : string).

(** [int(v)]; the error is the exception Python raises. *)
Definition int (v : value) : exn + Z :=
  match v with
  | VInt n => inr n
  | VStr s => match int_of_str s with Some n => inr n | None => inl ValueError end
  | VNone => inl TypeError
  end.

End Py.

(** ** The fragment of the [re] module the configuration reader uses

    A backtracking matcher in continuation-passing style.  Alternatives are
    tried left to right and a greedy repetition tries one more iteration
    before it tries to stop (a lazy one the other way round), which is the
    order in which Python's engine explores a pattern, so the first match
    found is the match Python reports. *)

Module Re.

Inductive regex :=
| Eps
| Sym (p : ascii -> bool)          (* one character of a class *)
| Seq (r1 r2 : regex)
| Alt (r1 r2 : regex)
| Star (greedy : bool) (r : regex) (* r* and r*? *)
| Group (i : nat) (r : regex)      (* capturing group number i *)
| Bol                              (* ^ *)
| Eol                              (* $ *)
| WordB.                           (* \b *)

(** A position in the subject: the character just before it, if any, and
    the text from it on. *)
Record cursor := { prev : option ascii; rest : list ascii }.

Definition captures := list (nat * list ascii).

Definition newline : ascii := "010"%char.

Definition start (s : string) : cursor := {| prev := None; rest := Py.chars s |}.

Definition at_bol (multiline : bool) (c : cursor) : bool :=
  match prev c with
  | None => true
  | Some a => multiline && Ascii.eqb a newline
  end.

Definition at_eol (multiline : bool) (c : cursor) : bool :=
  match rest c with
  | [] => true
  | a :: l => Ascii.eqb a newline && (multiline || match l with [] => true | _ => false end)
  end.

Definition at_word_boundary (c : cursor) : bool :=
  xorb (from_option Py.isword false (prev c))
       (from_option Py.isword false (head (rest c))).

Section Matcher.
Context (multiline : bool) {R : Type}.

Fixpoint exec (r : regex) (k : cursor -> captures -> option R)
    (c : cursor) (cs : captures) {struct r} : option R :=
  match r with
  | Eps => k c cs
  | Sym p =>
      match rest c with
      | a :: l => if p a then k {| prev := Some a; rest := l |} cs else None
      | [] => None
      end
  | Seq r1 r2 => exec r1 (exec r2 k) c cs
  | Alt r1 r2 =>
      match exec r1 k c cs with
      | Some x => Some x
      | None => exec r2 k c cs
      end
  | Star greedy r1 =>
      (fix loop (n : nat) (c : cursor) (cs : captures) {struct n} : option R :=
         match n with
         | O => k c cs
         | S n' =>
             let again c' cs' :=
               if (length (rest c') <? length (rest c))%nat
               then loop n' c' cs' else None in
             if greedy then
               match exec r1 again c cs with
               | Some x => Some x
               | None => k c cs
               end
             else
               match k c cs with
               | Some x => Some x
               | None => exec r1 again c cs
               end
         end) (length (rest c)) c cs
  | Group i r1 =>
      exec r1 (fun c' cs' =>
                 k c' ((i, take (length (rest c) - length (rest c')) (rest c)) :: cs'))
           c cs
  | Bol => if at_bol multiline c then k c cs else None
  | Eol => if at_eol multiline c then k c cs else None
  | WordB => if at_word_boundary c then k c cs else None
  end.
End Matcher.

(** The match that starts at [c], if there is one: where it ends and what
    its groups hold. *)
Definition match_at (multiline : bool) (r : regex) (c : cursor)
  : option (cursor * captures) :=
  exec multiline r (fun c' cs => Some (c', cs)) c [].

Definition group (i : nat) (cs : captures) : string :=
  Py.text (from_option (fun g => snd (snd g)) []
             (list_find (fun g => Nat.eqb (fst g) i = true) cs)).

(** The subject cut into the leftmost non-overlapping matches and the
    characters between them.  After an empty match the scan moves on by one
    character; none of the patterns below can match the empty string. *)
Inductive piece :=
| Lit (a : ascii)
| Hit (whole : list ascii) (cs : captures).

Fixpoint scan (fuel : nat) (multiline : bool) (r : regex) (c : cursor)
  : list piece :=
  match fuel with
  | O => []
  | S fuel' =>
      match match_at multiline r c with
      | Some (c', cs) =>
          let n := (length (rest c) - length (rest c'))%nat in
          let hit := Hit (take n (rest c)) cs in
          if Nat.eqb n 0 then
            match rest c with
            | [] => [hit]
            | a :: l =>
                hit :: Lit a :: scan fuel' multiline r {| prev := Some a; rest := l |}
            end
          else hit :: scan fuel' multiline r c'
      | None =>
          match rest c with
          | [] => []
          | a :: l => Lit a :: scan fuel' multiline r {| prev := Some a; rest := l |}
          end
      end
  end.

Definition pieces (multiline : bool) (r : regex) (s : string) : list piece :=
  scan (S (String.length s)) multiline r (start s).

(** [re.findall] for a pattern with two groups. *)
Definition findall2 (multiline : bool) (r : regex) (s : string)
  : list (string * string) :=
  omap (fun p => match p with
                 | Hit _ cs => Some (group 1 cs, group 2 cs)
                 | Lit _ => None
                 end) (pieces multiline r s).

(** [re.sub] with a replacement that refers to no group. *)
Definition sub (multiline : bool) (r : regex) (repl : string) (s : string)
  : string :=
  Py.text (concat (map (fun p => match p with
                                 | Hit _ _ => Py.chars repl
                                 | Lit a => [a]
                                 end) (pieces multiline r s))).

(** Pattern syntax. *)
Definition chr (a : ascii) : regex := Sym (Ascii.eqb a).
Definition plus (greedy : bool) (r : regex) : regex := Seq r (Star greedy r).
Definition lit (s : string) : regex := foldr (fun a r => Seq (chr a) r) Eps (Py.chars s).
Definition dot : regex := Sym (fun a => negb (Ascii.eqb a newline)).
Definition space : regex := Sym Py.isspace.
Definition nonspace : regex := Sym (fun a => negb (Py.isspace a)).
Definition word : regex := Sym Py.isword.

End Re.


(** ** [os.path] on a POSIX system *)

Module PosixPath.

Definition sep : ascii := "/"%char.

(** [join(a, b)] *)
Definition join (a b : string) : string :=
  if String.prefix "/" b then b
  else if String.eqb a "" || String.eqb (substring (String.length a - 1) 1 a) "/"
       then a ++ b
       else a ++ "/" ++ b.

(** [dirname(p)]: the text up to the last separator, without trailing
    separators unless it consists of separators only. *)
Definition dirname (p : string) : string :=
  let head := rev (Py.lstrip_chars (fun c => negb (Ascii.eqb c sep)) (rev (Py.chars p))) in
  if forallb (Ascii.eqb sep) head then Py.text head
  else Py.text (Py.rstrip_chars (Ascii.eqb sep) head).

(** [s.split('/')] *)
Fixpoint split (l : list ascii) : list (list ascii) :=
  match l with
  | [] => [[]]
  | c :: l' =>
      if Ascii.eqb c sep then [] :: split l'
      else match split l' with
           | comp :: comps => (c :: comp) :: comps
           | [] => [[c]]
           end
  end.

(** ['/'.join(comps)] *)
Fixpoint unsplit (comps : list (list ascii)) : list ascii :=
  match comps with
  | [] => []
  | [comp] => comp
  | comp :: comps' => comp ++ sep :: unsplit comps'
  end.

(** One turn of the loop of [normpath]; [new_comps] is kept reversed. *)
Definition normpath_step (initial_slashes : nat) (new_comps : list string)
    (comp : string) : list string :=
  if String.eqb comp "" || String.eqb comp "." then new_comps
  else if negb (String.eqb comp "..")
          || (Nat.eqb initial_slashes 0 && match new_comps with [] => true | _ => false end)
          || match new_comps with last :: _ => String.eqb last ".." | [] => false end
       then comp :: new_comps
       else tail new_comps.

(** [normpath(path)] *)
Definition normpath (path : string) : string :=
  if String.eqb path "" then "." else
  let initial_slashes :=
    if String.prefix "/" path then
      if String.prefix "//" path && negb (String.prefix "///" path) then 2%nat else 1%nat
    else 0%nat in
  let comps := map Py.text (split (Py.chars path)) in
  let new_comps := rev (foldl (normpath_step initial_slashes) [] comps) in
  let path' := Py.text (repeat sep initial_slashes
                        ++ unsplit (map Py.chars new_comps)) in
  if String.eqb path' "" then "." else path'.

Definition isabs (path : string) : bool := String.prefix "/" path.

End PosixPath.

(** ** The world outside the module *)

(** What [eval(value)] in [_read_casrc] can see besides the expression
    itself.  Called without a namespace, [eval] runs in the scope of the
    call: the local names [path], [config], [name] and [lg] differ from one
    evaluation to the next, and so does what the evaluations before this
    one may have done.  The other names in scope are the same in every
    call ([cashost], [casport] and [casprotocol] are still [None]). *)
Record scope := {
  (** [path] *)
  sc_path : string;
  (** [config]: the text of the file without its comments *)
  sc_config : string;
  (** the assignments the loop has handled before this one *)
  sc_done : list (string * string);
  (** [name] *)
  sc_name : string;
  (** the attributes of [lg] *)
  sc_lg : gmap string Py.value
}.

Record World := {
  (** [os.environ] *)
  environ : gmap string string;
  (** [os.getcwd()] *)
  getcwd : string;
  (** [pwd.getpwuid(os.getuid()).pw_dir]; [None] when the lookup raises
      [KeyError]. *)
  getpwuid_dir : option string;
  (** [pwd.getpwnam(name).pw_dir] *)
  getpwnam_dir : string -> option string;
  (** [os.stat(path)]: the identity of the file (device and i-node) and
      whether it is a regular file; [None] when the call fails. *)
  stat : string -> option (Z * bool);
  (** [open(path, 'r').read()]; [None] when it fails. *)
  file_text : string -> option string;
  (** The exception [open(path, 'r').read()] raises when it fails: an
      [OSError] for a file that cannot be opened, a [ValueError]
      ([UnicodeDecodeError]) for bytes that are not text. *)
  read_error : string -> Py.exn;
  (** The [lupa] package when it can be imported: what evaluating a piece
      of Lua code raises, or else the attribute lookup of the resulting
      [lua.globals()] ([None] for an attribute that is not there). *)
  lupa : option (string -> Py.exn + (string -> option Py.value));
  (** What a shell command prints, or [None] when running it raises
      [OSError], [IOError] or [CalledProcessError]. *)
  check_output : string -> option string;
  (** [eval] on a Python expression that is not one of the literals
      modelled in [py_eval], in the scope of the call: the exception it
      raises, or its value and the attributes of [lg] after it (the
      expression can reach [lg] and set attributes itself). *)
  eval_expr : scope -> string -> Py.exn + (Py.value * gmap string Py.value)
}.

(** What a call observes of the file system and of other programs. *)
Inductive event :=
| EvStat (path : string)              (* isfile, exists, samefile *)
| EvOpen (path : string)
| EvImportLupa
| EvLuaEval (code : string)
| EvSubprocess (cmd : string)
| EvStderr (msg : string)
| EvEval (source : string).             (* eval on more than a literal *)

Inductive outcome (A : Type) :=
| Return (a : A)
| Raise (e : Py.exn)
| OutOfFuel.
Arguments Return {A} a.
Arguments Raise {A} e.
Arguments OutOfFuel {A}.

(** A computation reads the world and yields an outcome and the log of
    what it observed. *)
Definition M (A : Type) : Type := World -> outcome A * list event.

Definition ret {A} (a : A) : M A := fun _ => (Return a, []).

Definition bind {A B} (m : M A) (f : A -> M B) : M B :=
  fun w =>
    match m w with
    | (Return a, t) => let '(r, t') := f a w in (r, (t ++ t')%list)
    | (Raise e, t) => (Raise e, t)
    | (OutOfFuel, t) => (OutOfFuel, t)
    end.

Definition raise {A} (e : Py.exn) : M A := fun _ => (Raise e, []).
Definition out_of_fuel {A} : M A := fun _ => (OutOfFuel, []).
Definition ask : M World := fun w => (Return w, []).
Definition emit (e : event) : M unit := fun _ => (Return tt, [e]).

(** [try: m  except: handler] with a bare [except], which catches every
    exception. *)
Definition try_except {A} (m : M A) (handler : M A) : M A :=
  fun w =>
    match m w with
    | (Raise _, t) => let '(r, t') := handler w in (r, (t ++ t')%list)
    | other => other
    end.

Definition lift {A} (r : Py.exn + A) : M A :=
  match r with
  | inl e => raise e
  | inr a => ret a
  end.

Declare Scope py_scope.
Delimit Scope py_scope with py.
Notation "'let*' x ':=' m 'in' k" := (bind m (fun x => k))
  (at level 10, x name, m at level 100, k at level 200,
   format "'[v' 'let*'  x  ':='  m  'in' '/' k ']'") : py_scope.
Local Open Scope py_scope.

(** ** Access to the world *)

(** [os.environ.get(name)] *)
Definition environ_get (name : string) : M (option string) :=
  let* w := ask in ret (environ w !! name).

(** [os.environ.get(name, dflt)] *)
Definition environ_get_default (name dflt : string) : M string :=
  let* w := ask in ret (default dflt (environ w !! name)).

(** [name in os.environ] *)
Definition environ_contains (name : string) : M bool :=
  let* w := ask in ret (bool_decide (is_Some (environ w !! name))).

(** [os.environ[name]] *)
Definition environ_item (name : string) : M string :=
  let* w := ask in
  match environ w !! name with
  | Some v => ret v
  | None => raise (Py.OtherError "KeyError")
  end.

(** [os.stat(path)] succeeds and reports a regular file. *)
Definition is_file (w : World) (path : string) : bool :=
  match stat w path with
  | Some (_, regular) => regular
  | None => false
  end.

(** [os.stat(path)] succeeds. *)
Definition path_exists (w : World) (path : string) : bool :=
  match stat w path with
  | Some _ => true
  | None => false
  end.

(** [os.path.isfile(path)] *)
Definition isfile (path : string) : M bool :=
  let* _ := emit (EvStat path) in
  let* w := ask in
  ret (is_file w path).

(** [os.path.exists(path)] *)
Definition exists_ (path : string) : M bool :=
  let* _ := emit (EvStat path) in
  let* w := ask in
  ret (path_exists w path).

(** [os.path.samefile(f1, f2)]: raises when either [os.stat] fails. *)
Definition samefile (f1 f2 : string) : M bool :=
  let* _ := emit (EvStat f1) in
  let* w := ask in
  match stat w f1 with
  | None => raise Py.OSError
  | Some (id1, _) =>
      let* _ := emit (EvStat f2) in
      match stat w f2 with
      | None => raise Py.OSError
      | Some (id2, _) => ret (id1 =? id2)
      end
  end.

(** [os.path.expanduser(path)] in the world [w]. *)
Definition expanduser_in (w : World) (path : string) : string :=
  if negb (String.prefix "~" path) then path else
  let i := match index 1 "/" path with Some i => i | None => String.length path end in
  let finish (userhome : string) : string :=
    let expanded := (Py.rstrip_char "/" userhome
                     ++ substring i (String.length path - i) path)%string in
    if String.eqb expanded "" then "/" else expanded in
  if Nat.eqb i 1 then
    match environ w !! "HOME" with
    | None =>
        match getpwuid_dir w with
        | Some userhome => finish userhome
        | None => path
        end
    | Some userhome => finish userhome
    end
  else
    match getpwnam_dir w (substring 1 (i - 1) path) with
    | Some userhome => finish userhome
    | None => path
    end.

Definition expanduser (path : string) : M string :=
  let* w := ask in ret (expanduser_in w path).

(** [os.path.abspath(path)] in the world [w], whose working directory is
    taken to exist. *)
Definition abspath_in (w : World) (path : string) : string :=
  if PosixPath.isabs path then PosixPath.normpath path
  else PosixPath.normpath (PosixPath.join (getcwd w) path).

Definition abspath (path : string) : M string :=
  let* w := ask in ret (abspath_in w path).

Definition dquote : ascii := "034"%char.
Definition backslash : ascii := "092"%char.

(** [s] between double quotes. *)
Definition quoted (s : string) : string :=
  String dquote (s ++ String dquote "").

Definition int_literal (l : list ascii) : option Z :=
  match Py.digits_value false 0 l with
  | Some n => if negb (String.prefix "0" (Py.text l)) || (n =? 0) then Some n else None
  | None => None
  end.

Definition str_literal (l : list ascii) : option string :=
  match l with
  | q :: l' =>
      if Ascii.eqb q dquote || Ascii.eqb q "'" then
        match rev l' with
        | q' :: body =>
            if Ascii.eqb q' q
               && forallb (fun c => negb (Ascii.eqb c q || Ascii.eqb c backslash
                                          || Ascii.eqb c Re.newline
                                          || Ascii.eqb c "013" || Ascii.eqb c "000"))
                          body
            then Some (Py.text (rev body)) else None
        | [] => None
        end
      else None
  | [] => None
  end.

(** [eval(source)] in the scope [sc]: the value, and the attributes of
    [lg] after the evaluation.  A literal is its value and leaves [lg]
    alone; anything else is up to the interpreter. *)
Definition py_eval (sc : scope) (source : string)
  : M (Py.value * gmap string Py.value) :=
  match int_literal (Py.chars source) with
  | Some n => ret (Py.VInt n, sc_lg sc)
  | None =>
      match str_literal (Py.chars source) with
      | Some s => ret (Py.VStr s, sc_lg sc)
      | None =>
          let* _ := emit (EvEval source) in
          let* w := ask in
          lift (eval_expr w sc source)
      end
  end.

(** ** swat/utils/testing.py *)

(** The names bound in the module's global scope once it is imported. *)
Definition module_globals : list string :=
  [ "print_function"; "division"; "absolute_import"; "unicode_literals";
    "os"; "re"; "unittest"; "UUID_RE"; "TestCase";
    "get_casout_lib"; "get_cas_data_lib"; "get_user_pass";
    "get_host_port_proto"; "_read_casrc"; "load_data"; "runtests";
    "get_cas_host_type"; "getcashosttype" ].

(** Reading a global name that is not a builtin. *)
Definition load_global (name : string) : M unit :=
  if bool_decide (name ∈ module_globals) then ret tt
  else raise (Py.NameError name).

(** Attributes of the [sys] module the code could mean. *)
Definition sys_attributes : list string :=
  [ "stderr"; "stdout"; "stdin"; "exit"; "argv" ].

Definition sys_getattr (name : string) : M unit :=
  if bool_decide (name ∈ sys_attributes) then ret tt
  else raise (Py.AttributeError name).

(** [get_casout_lib(server_type)] *)
Definition get_casout_lib (server_type : string) : M string :=
  let* out_lib := environ_get_default "CASOUTLIB" "CASUSER" in
  if Py.contains ".mpp" server_type
  then environ_get_default "CASMPPOUTLIB" out_lib
  else ret out_lib.

(** [get_cas_data_lib(server_type)] *)
Definition get_cas_data_lib (server_type : string) : M string :=
  let* data_lib := environ_get_default "CASDATALIB" "CASTestTmp" in
  if Py.contains ".mpp" server_type
  then environ_get_default "CASMPPDATALIB" "HPS"
  else ret data_lib.

(** [get_user_pass()] *)
Definition get_user_pass : M (option string * option string) :=
  let username := None in
  let password := None in
  let* has_user := environ_contains "CASUSER" in
  let* username :=
    if has_user then let* v := environ_item "CASUSER" in ret (Some v)
    else ret username in
  let* has_password := environ_contains "CASPASSWORD" in
  let* password :=
    if has_password then let* v := environ_item "CASPASSWORD" in ret (Some v)
    else ret password in
  ret (username, password).

(** The patterns of [_read_casrc]. *)

(** [^\s*(cas\w+)\s+(.+?)\s*$], compiled with [re.M] *)
Definition output_re : Re.regex :=
  Re.Seq Re.Bol
 (Re.Seq (Re.Star true Re.space)
 (Re.Seq (Re.Group 1 (Re.Seq (Re.lit "cas") (Re.plus true Re.word)))
 (Re.Seq (Re.plus true Re.space)
 (Re.Seq (Re.Group 2 (Re.plus false Re.dot))
 (Re.Seq (Re.Star true Re.space) Re.Eol))))).

(** [\-\-.*?$], compiled with [re.M] *)
Definition comment_re : Re.regex :=
  Re.Seq (Re.chr "-") (Re.Seq (Re.chr "-") (Re.Seq (Re.Star false Re.dot) Re.Eol)).

(** [\b(cas\w+)\s*=\s*(\S+)(?:\s+|\s*$)] *)
Definition assign_re : Re.regex :=
  Re.Seq Re.WordB
 (Re.Seq (Re.Group 1 (Re.Seq (Re.lit "cas") (Re.plus true Re.word)))
 (Re.Seq (Re.Star true Re.space)
 (Re.Seq (Re.chr "=")
 (Re.Seq (Re.Star true Re.space)
 (Re.Seq (Re.Group 2 (Re.plus true Re.nonspace))
         (Re.Alt (Re.plus true Re.space)
                 (Re.Seq (Re.Star true Re.space) Re.Eol))))))).

(** The connection parameters: [(cashost, casport, casprotocol)]. *)
Definition params : Type := option string * option Z * option string.

(** An object whose attributes are read with [lg.name]: the attribute's
    value, or [None] when the read raises [AttributeError]. *)
Definition globals : Type := string -> option Py.value.

(** [class LuaGlobals(object): pass] with the attributes set so far. *)
Definition LuaGlobals (attrs : gmap string Py.value) : globals :=
  fun name => attrs !! name.

(** A table that answers [None] for a name that is not set instead of
    raising, the way a Lua table answers [nil]. *)
Definition nil_for_unset (attrs : gmap string Py.value) : globals :=
  fun name => Some (default Py.VNone (attrs !! name)).

Definition getattr (lg : globals) (name : string) : M Py.value :=
  match lg name with
  | Some v => ret v
  | None => raise (Py.AttributeError name)
  end.

(** The handler of the first two [try] statements at the end of
    [_read_casrc]:
      sys.sterr.write(msg)
      sys.exit(1)                                                     *)
Definition report_and_exit {A} (msg : string) : M A :=
  let* _ := load_global "sys" in
  let* _ := sys_getattr "sterr" in
  let* _ := emit (EvStderr msg) in
  let* _ := load_global "sys" in
  raise (Py.SystemExit 1).

(** The part of [_read_casrc] after the globals [lg] have been obtained. *)
Definition read_settings (lg : globals) : M params :=
  let* cashost :=
    try_except (let* v := getattr lg "cashost" in ret (Py.str v))
               (report_and_exit "ERROR: Could not access cashost setting") in
  let* casport :=
    try_except (let* v := getattr lg "casport" in lift (Py.int v))
               (report_and_exit "ERROR: Could not access casport setting") in
  let* casprotocol :=
    try_except (let* v := getattr lg "casprotocol" in
                if Py.truthy v
                then let* v' := getattr lg "casprotocol" in ret (Some (Py.str v'))
                else ret None)
               (ret None) in
  ret (Some cashost, Some casport, casprotocol).

(** [for name, value in matches: setattr(lg, name, value)] *)
Definition set_strings (matches : list (string * string))
  : gmap string Py.value :=
  foldl (fun attrs nv => <[fst nv := Py.VStr (snd nv)]> attrs) ∅ matches.

(** [for name, value in matches: setattr(lg, name, eval(value))], with
    [seen] the assignments of earlier turns and [attrs] the attributes of
    [lg] so far.  [eval] runs before [setattr] sets the attribute. *)
Fixpoint set_evaluated (path config : string) (seen : list (string * string))
    (attrs : gmap string Py.value) (matches : list (string * string))
  : M (gmap string Py.value) :=
  match matches with
  | [] => ret attrs
  | (name, value) :: matches' =>
      let* r := py_eval {| sc_path := path; sc_config := config; sc_done := seen;
                           sc_name := name; sc_lg := attrs |} value in
      set_evaluated path config (seen ++ [(name, value)])%list
                    (<[name := fst r]> (snd r)) matches'
  end.

(** The [except ImportError] branch of [_read_casrc]: ask the [lua]
    program, and read the file by hand when that gives nothing.  The
    temporary file that carries the driver script to [lua] is part of the
    command's run: creating it is taken to succeed and leaves no event of
    its own in the log. *)
Definition read_without_lupa (path : string) : M globals :=
  let cmd := ("lua - " ++ path)%string in
  let* _ := emit (EvSubprocess cmd) in
  let* w := ask in
  let config := Py.bytes_strip <$> check_output w cmd in
  match config with
  | Some (String c cfg) =>
      ret (LuaGlobals (set_strings (Re.findall2 true output_re (String c cfg))))
  | _ =>
      let* _ := emit (EvOpen path) in
      match file_text w path with
      | None => raise (read_error w path)
      | Some content =>
          let config := Re.sub true comment_re " " content in
          let* attrs := set_evaluated path config [] ∅
                                      (Re.findall2 false assign_re config) in
          ret (LuaGlobals attrs)
      end
  end.

(** [_read_casrc(path)] *)
Definition _read_casrc (path : string) : M params :=
  let* is_file := isfile path in
  if negb is_file then ret (None, None, None) else
  let* _ := emit EvImportLupa in
  let* w := ask in
  let* lg :=
    match lupa w with
    | Some lua_eval =>
        let code := ("dofile(" ++ quoted path ++ ")")%string in
        let* _ := emit (EvLuaEval code) in
        lift (lua_eval code)
    | None => read_without_lupa path
    end in
  read_settings lg.

(** The search loop of [get_host_port_proto]:
      while not os.path.isfile(cfgfile):
          if os.path.samefile(dirname(homepath), dirname(cfgfile)): break
          newcfgfile = os.path.abspath(os.path.normpath(rcname))
          if os.path.samefile(dirname(cfgfile), dirname(newcfgfile)): break
    Nothing in the body assigns [cfgfile], so a further turn starts from
    the same state; [fuel] bounds the number of turns. *)
Fixpoint search_loop (fuel : nat) (rcname homepath cfgfile : string) : M unit :=
  match fuel with
  | O => out_of_fuel
  | S fuel' =>
      let* found := isfile cfgfile in
      if found then ret tt else
      let* at_home := samefile (PosixPath.dirname homepath) (PosixPath.dirname cfgfile) in
      if at_home then ret tt else
      let* newcfgfile := abspath (PosixPath.normpath rcname) in
      let* same := samefile (PosixPath.dirname cfgfile) (PosixPath.dirname newcfgfile) in
      if same then ret tt else
      search_loop fuel' rcname homepath cfgfile
  end.

(** Truth value of [cashost] and of [casport] in [if cashost and casport]. *)
Definition truthy_str (v : option string) : bool :=
  match v with Some s => Py.truthy (Py.VStr s) | None => Py.truthy Py.VNone end.
Definition truthy_int (v : option Z) : bool :=
  match v with Some n => Py.truthy (Py.VInt n) | None => Py.truthy Py.VNone end.

(** [get_host_port_proto()] *)
Definition get_host_port_proto (fuel : nat) : M params :=
  let* cashost := environ_get "CASHOST" in
  let* casport := environ_get "CASPORT" in
  let* casprotocol := environ_get "CASPROTOCOL" in
  let* casport :=
    match casport with
    | Some s => let* n := lift (Py.int (Py.VStr s)) in ret (Some n)
    | None => ret None
    end in
  if truthy_str cashost && truthy_int casport
  then ret (cashost, casport, casprotocol) else
  let rcname := ".casrc" in
  let* home := environ_get_default "HOME" "~" in
  let* userhome := expanduser home in
  let homepath := PosixPath.join userhome rcname in
  let upath := PosixPath.join "u:" rcname in
  let* cfgfile := abspath (PosixPath.normpath rcname) in
  let* _ := search_loop fuel rcname homepath cfgfile in
  let* in_cwd := isfile cfgfile in
  if in_cwd then _read_casrc cfgfile else
  let* in_home := exists_ homepath in
  if in_home then _read_casrc homepath else
  let* on_u := exists_ upath in
  if on_u then _read_casrc upath else
  ret (cashost, casport, casprotocol).

(** ** The comparison helpers of [TestCase] *)

(** A cell holds an integer or is missing (NaN). *)
Definition cell : Type := option Z.

(** A [DataFrame]: its column labels and its records. *)
Record frame := { columns : list string; records : list (list cell) }.

(** [self.assertEqual(first, second)] *)
Definition assertEqual {A} `{EqDecision A} (first second : A) : M unit :=
  if bool_decide (first = second) then ret tt else raise Py.AssertionError.

(** [fillna(value=v)] on one record or on a [Series]. *)
Definition fillna (v : Z) (l : list cell) : list Z := map (default v) l.

(** [for x in xs: body(x)] *)
Fixpoint for_each {A} (body : A -> M unit) (xs : list A) : M unit :=
  match xs with
  | [] => ret tt
  | x :: xs' => let* _ := body x in for_each body xs'
  end.

(** [sorted(l)] on integers. *)
Definition sorted (l : list Z) : list Z := merge_sort Z.le l.

Section AssertTables.

(** [DataFrame.sort_values(by)], which may fail. *)
Variable sort_values : string -> frame -> Py.exn + frame.

(** [assertTablesEqual(a, b, fillna, sortby)] on two frames; an empty
    [sortby] counts as none, as in [if sortby:]. *)
Definition assertTablesEqual (a b : frame) (fill : Z) (sortby : option string)
  : M unit :=
  let sort (f : frame) : M frame :=
    match sortby with
    | Some (String c key) => lift (sort_values (String c key) f)
    | _ => ret f
    end in
  let* a := sort a in
  let* b := sort b in
  let* _ := assertEqual (columns a) (columns b) in
  let a := map (fillna fill) (records a) in
  let b := map (fillna fill) (records b) in
  for_each (fun rows => assertEqual (fst rows) (snd rows)) (zip a b).

End AssertTables.

(** [assertColsEqual(a, b, fillna, sort)] on two [Series]. *)
Definition assertColsEqual (a b : list cell) (fill : Z) (sort : bool) : M unit :=
  let a := fillna fill a in
  let b := fillna fill b in
  if sort then assertEqual (sorted a) (sorted b)
  else assertEqual a b.

(** Running a computation. *)
Definition result {A} (m : M A) (w : World) : outcome A := fst (m w).
Definition log {A} (m : M A) (w : World) : list event := snd (m w).

(** ** The candidates of the search, named for the statements below *)

(** [os.path.abspath(os.path.normpath('.casrc'))] *)
Definition cfgfile_of (w : World) : string :=
  abspath_in w (PosixPath.normpath ".casrc").

(** [os.path.join(os.path.expanduser(os.environ.get('HOME', '~')), '.casrc')] *)
Definition homepath_of (w : World) : string :=
  PosixPath.join (expanduser_in w (default "~" (environ w !! "HOME"))) ".casrc".

(** [os.path.join(r'u:', '.casrc')] *)
Definition upath : string := PosixPath.join "u:" ".casrc".

(** The file the [if]/[elif] chain after the loop picks: the candidate in
    the working directory when it is a regular file, else the one in the
    home directory when it exists, else the one under [u:]. *)
Definition selected_casrc (w : World) : option string :=
  if is_file w (cfgfile_of w) then Some (cfgfile_of w)
  else if path_exists w (homepath_of w) then Some (homepath_of w)
  else if path_exists w upath then Some upath
  else None.

(** The port the environment gives, as [get_host_port_proto] reads it:
    nothing when [CASPORT] is unset, else [int] of its value, which may
    raise. *)
Definition environ_port (w : World) : Py.exn + option Z :=
  match environ w !! "CASPORT" with
  | None => inr None
  | Some s =>
      match Py.int (Py.VStr s) with
      | inl e => inl e
      | inr n => inr (Some n)
      end
  end.

(** ** Worlds to evaluate the code in *)

Definition nl : string := String Re.newline "".

(** A machine without Lua: [lupa] cannot be imported and running [lua]
    fails.  The working directory is [/work], the user's home [/home/u]. *)
Definition world_without_lua (env : gmap string string)
    (files : gmap string (Z * bool)) (texts : gmap string string) : World :=
  {| environ := env;
     getcwd := "/work";
     getpwuid_dir := Some "/home/u";
     getpwnam_dir := fun _ => None;
     stat := fun path => files !! path;
     file_text := fun path => texts !! path;
     read_error := fun _ => Py.OSError;
     lupa := None;
     check_output := fun _ => None;
     eval_expr := fun _ _ => inl (Py.OtherError "not a literal") |}.

(** The two directories, and nothing else. *)
Definition only_directories : gmap string (Z * bool) :=
  {[ "/work" := (1, false); "/home/u" := (2, false) ]}.

(** A configuration file with both settings:
      cashost = "a.b.c"
      casport = 5570                                                   *)
Definition casrc_text : string :=
  ("cashost = " ++ quoted "a.b.c" ++ nl ++ "casport = 5570" ++ nl)%string.

(** A configuration file without a port. *)
Definition casrc_without_port : string :=
  ("cashost = " ++ quoted "a.b.c" ++ nl)%string.

(** Two tables with the same column and the same first record; the
    second has one record more. *)
Definition one_row : frame :=
  {| columns := ["x"]; records := [[Some 1]] |}.
Definition two_rows : frame :=
  {| columns := ["x"]; records := [[Some 1]; [Some 2]] |}.


(** Host and port "0" in the environment, a complete [.casrc] in the
    working directory. *)
Definition world_port_zero : World :=
  world_without_lua {[ "CASHOST" := "envhost"; "CASPORT" := "0" ]}
                    (<["/work/.casrc" := (3, true)]> only_directories)
                    {[ "/work/.casrc" := casrc_text ]}.


(** A port that is not a number, and no [.casrc] anywhere. *)
Definition world_bad_port : World :=
  world_without_lua {[ "CASPORT" := "abc" ]} only_directories ∅.

(** [HOME] names a directory that does not exist, and no [.casrc]
    anywhere. *)
Definition world_missing_home : World :=
  world_without_lua {[ "HOME" := "/nohome" ]} only_directories ∅.

(** Nothing in the environment, and no [.casrc] anywhere. *)
Definition world_bare : World :=
  world_without_lua ∅ only_directories ∅.

(** A [.casrc] without a port in the working directory. *)
Definition world_casrc_without_port : World :=
  world_without_lua ∅ (<["/work/.casrc" := (3, true)]> only_directories)
                    {[ "/work/.casrc" := casrc_without_port ]}.

(** ** The rest of the module: helpers that talk to a CAS server *)

(** [os.path.splitext(p)[0]]: the path without its extension.  The
    extension starts at the last dot, unless that dot is not after the last
    separator or only dots stand between the separator and it. *)
Fixpoint rfind_from (c : ascii) (i : Z) (found : Z) (l : list ascii) : Z :=
  match l with
  | [] => found
  | a :: l' => rfind_from c (i + 1) (if Ascii.eqb a c then i else found) l'
  end.

(** [s.rfind(c)] for a one-character [c]; [-1] when [c] does not occur. *)
Definition rfind (c : ascii) (s : string) : Z := rfind_from c 0 (-1) (Py.chars s).

Definition splitext_root (p : string) : string :=
  let sepIndex := rfind "/" p in
  let dotIndex := rfind "." p in
  if (dotIndex >? sepIndex)
     && negb (forallb (Ascii.eqb ".")
                (take (Z.to_nat (dotIndex - (sepIndex + 1)))
                      (drop (Z.to_nat (sepIndex + 1)) (Py.chars p))))
  then Py.text (take (Z.to_nat dotIndex) (Py.chars p))
  else p.

(** [s.replace(a, b)] for one-character [a] and [b]. *)
Definition replace_char (a b : ascii) (s : string) : string :=
  Py.text (map (fun c => if Ascii.eqb c a then b else c) (Py.chars s)).

(** [re.compile] on the two patterns [load_data] passes to [re.sub]: the
    separator "/" matches itself, a lone backslash is an unfinished escape
    and is rejected with [re.error]. *)
Definition compile_separator (pattern : string) : Py.exn + Re.regex :=
  if String.eqb pattern "/" then inr (Re.chr "/")
  else if String.eqb pattern (String backslash "")
       then inl (Py.OtherError "re.error: bad escape (end of pattern)")
       else inl (Py.OtherError "pattern outside the model").

(** A Python [dict] with text keys. *)
Abbreviation dict := (gmap string Py.value).

(** The connection object and the installed test package, as the helpers
    use them.  Each action answers with its result or raises. *)
Record Session := {
  (** [swat.tests.__file__] *)
  st_file : string;
  (** [conn.loadtable(caslib=, path=, casout=)] *)
  loadtable : string -> string -> dict -> Py.exn + dict;
  (** [conn.upload(path, casout=)] *)
  upload : string -> dict -> Py.exn + dict;
  (** [conn.about()]: the OS family and the number of nodes it reports. *)
  about : Py.exn + (string * Z);
  (** [conn.table.querycaslib(caslib=)]: the items of the result. *)
  querycaslib : string -> Py.exn + list (string * Py.value)
}.

(** The actions sent to the server. *)
Inductive call :=
| CallLoadtable (caslib path : string) (casout : dict)
| CallUpload (path : string) (casout : dict)
| CallAbout
| CallQuerycaslib (caslib : string).

(** Computations that also talk to the server: they log the actions they
    send next to the file-system events. *)
Definition R (A : Type) : Type :=
  World -> Session -> outcome A * list (event + call).

Definition rret {A} (a : A) : R A := fun _ _ => (Return a, []).

Definition rbind {A B} (m : R A) (f : A -> R B) : R B :=
  fun w s =>
    match m w s with
    | (Return a, t) => let '(r, t') := f a w s in (r, (t ++ t')%list)
    | (Raise e, t) => (Raise e, t)
    | (OutOfFuel, t) => (OutOfFuel, t)
    end.

Definition rraise {A} (e : Py.exn) : R A := fun _ _ => (Raise e, []).

(** A computation of [M] run inside [R]. *)
Definition local {A} (m : M A) : R A :=
  fun w _ => let '(r, t) := m w in (r, map inl t).

(** Sending an action: it is logged, then the server's answer decides. *)
Definition send {A} (c : call) (answer : Session -> Py.exn + A) : R A :=
  fun _ s =>
    (match answer s with inl e => Raise e | inr a => Return a end, [inr c]).

Notation "'let+' x ':=' m 'in' k" := (rbind m (fun x => k))
  (at level 10, x name, m at level 100, k at level 200,
   format "'[v' 'let+'  x  ':='  m  'in' '/' k ']'") : py_scope.

Definition rresult {A} (m : R A) (w : World) (s : Session) : outcome A := fst (m w s).
Definition rlog {A} (m : R A) (w : World) (s : Session) : list (event + call) :=
  snd (m w s).

(** [key in d] *)
Definition has_key (key : string) (d : dict) : bool :=
  bool_decide (is_Some (d !! key)).

(** ['tableName' not in res or not res['tableName']] *)
Definition no_table (res : dict) : bool :=
  match res !! "tableName" with
  | Some v => negb (Py.truthy v)
  | None => true
  end.

(** The separator [load_data] works with, and the path after
      if 'win' in server_type:
          sep = '\\'
          path = path.replace('/', '\\')                                *)
Definition separator (server_type : string) : string :=
  if Py.contains "win" server_type then String backslash "" else "/".

Definition server_path (server_type path : string) : string :=
  if Py.contains "win" server_type then replace_char "/" backslash path else path.

(** The three [if] statements of [load_data] that complete [casout]; the
    last one calls [re.sub(sep, '.', os.path.splitext(path)[0])], which
    raises when [sep] does not compile. *)
Definition fill_casout (out_lib sep path : string) (casout : option dict)
  : Py.exn + dict :=
  let d := match casout with
           | None => {[ "caslib" := Py.VStr "casuser" ]}
           | Some d => d
           end in
  let d := if negb (has_key "caslib" d) && negb (has_key "casLib" d)
           then <["caslib" := Py.VStr out_lib]> d else d in
  if negb (has_key "name" d) then
    match compile_separator sep with
    | inl e => inl e
    | inr pattern =>
        inr (<["name" := Py.VStr (Re.sub false pattern "." (splitext_root path))]> d)
    end
  else inr d.

(** [load_data(conn, path, server_type, casout)].  The second component of
    the value is the caller's [casout] dictionary as the call leaves it
    (the function assigns into it); it is [None] when the caller passed
    [None]. *)
Definition load_data (path server_type : string) (casout : option dict)
  : R (dict * option dict) :=
  let+ data_lib := local (get_cas_data_lib server_type) in
  let+ out_lib := local (get_casout_lib server_type) in
  let sep := separator server_type in
  let path := server_path server_type path in
  let+ d := local (lift (fill_casout out_lib sep path casout)) in
  let+ res := send (CallLoadtable data_lib path d)
                   (fun s => loadtable s data_lib path d) in
  let+ res :=
    if no_table res then
      let+ s := (fun _ s => (Return s, [])) in
      let local_path := PosixPath.join (PosixPath.dirname (st_file s)) path in
      send (CallUpload local_path d) (fun s => upload s local_path d)
    else rret res in
  rret (res, (fun _ => d) <$> casout).

(** The loop of [get_cas_host_type] over the items of the query: the HDFS
    type becomes empty as soon as an item with [CASUSERHDFS] in its key has
    a true value. *)
Definition hdfs_type (items : list (string * Py.value)) : string :=
  foldl (fun htype kv =>
           if Py.contains "CASUSERHDFS" (fst kv) && Py.truthy (snd kv)
           then "" else htype)
        "nohdfs" items.

(** The OS name of a server type, from the OS family the server reports;
    [None] when [get_cas_host_type] raises [ValueError]. *)
Definition os_name (ostype : string) : option string :=
  if String.prefix "LIN" ostype then Some "linux"
  else if String.prefix "WIN" ostype then Some "windows"
  else if String.prefix "OSX" ostype then Some "mac"
  else None.

(** [get_cas_host_type(conn)] *)
Definition get_cas_host_type : R string :=
  let+ out := send CallAbout about in
  let ostype := fst out in
  let stype := if snd out =? 1 then "smp" else "mpp" in
  let+ ostype :=
    match os_name ostype with
    | Some name => rret name
    | None => rraise Py.ValueError
    end in
  let+ items := send (CallQuerycaslib "CASUSERHDFS")
                     (fun s => querycaslib s "CASUSERHDFS") in
  let htype := hdfs_type items in
  if String.eqb stype "mpp" && (0 <? String.length htype)%nat
  then rret (ostype ++ "." ++ stype ++ "." ++ htype)%string
  else rret (ostype ++ "." ++ stype)%string.

(** An item of the query that shows the user's HDFS library. *)
Definition shows_hdfs (item : string * Py.value) : bool :=
  Py.contains "CASUSERHDFS" (fst item) && Py.truthy (snd item).

(** [TestCase.assertContainsMessage(results, expectedMsg)] on the list
    [results.messages]. *)
Fixpoint assertContainsMessage (messages : list string) (expectedMsg : string)
  : M unit :=
  match messages with
  | [] => raise Py.ValueError
  | message :: messages' =>
      if Py.contains expectedMsg message then ret tt
      else assertContainsMessage messages' expectedMsg
  end.

(** [TestCase.replaceNaN(row, nan)]; [pd.isnull(x)] reads the global name
    [pd] for every element. *)
Fixpoint replaceNaN (row : list cell) (nan : cell) : M (list cell) :=
  match row with
  | [] => ret []
  | x :: row' =>
      let* _ := load_global "pd" in
      let x := match x with None => nan | Some _ => x end in
      let* row' := replaceNaN row' nan in
      ret (x :: row')
  end.

(** A character that stands for itself between the quotes of a Python
    string literal: not the quote, not a backslash, and none of the
    characters that end a line or the source (line feed, carriage return,
    NUL). *)
Definition plain_char (c : ascii) : bool :=
  negb (Ascii.eqb c dquote || Ascii.eqb c backslash || Ascii.eqb c Re.newline
        || Ascii.eqb c "013" || Ascii.eqb c "000").

(** The text from the end of the current line on. *)
Fixpoint skip_line (l : list ascii) : list ascii :=
  match l with
  | [] => []
  | a :: l' => if Ascii.eqb a Re.newline then l else skip_line l'
  end.

(** A text with its Lua comments taken out by hand: two dashes and what
    follows them on the line give way to one space, the line break stays. *)
Fixpoint without_comments (in_comment : bool) (l : list ascii) : list ascii :=
  match l with
  | [] => []
  | a :: l' =>
      if in_comment then
        if Ascii.eqb a Re.newline then a :: without_comments false l'
        else without_comments true l'
      else
        match l' with
        | b :: l'' =>
            if Ascii.eqb a "-" && Ascii.eqb b "-"
            then " "%char :: without_comments true l''
            else a :: without_comments false l'
        | [] => [a]
        end
  end.

(** A session whose server has the table: [loadtable] answers with the
    table name given to it, [upload] is not expected. *)
Definition session_with_table : Session :=
  {| st_file := "/site/swat/tests/__init__.py";
     loadtable := fun _ _ casout =>
       inr {[ "tableName" := default (Py.VStr "T") (casout !! "name") ]};
     upload := fun _ _ => inl (Py.OtherError "upload not expected");
     about := inr ("LINUX", 4);
     querycaslib := fun _ => inr [] |}.

(** A session whose server lacks the table: [loadtable] answers without a
    table name, [upload] answers with one. *)
Definition session_without_table : Session :=
  {| st_file := "/site/swat/tests/__init__.py";
     loadtable := fun _ _ _ => inr ∅;
     upload := fun _ casout =>
       inr {[ "tableName" := default (Py.VStr "T") (casout !! "name") ]};
     about := inr ("WIN64", 1);
     querycaslib := fun _ => inr [("CASUSERHDFS(user)", Py.VInt 1)] |}.

(** ** Properties *)

(** *** Library names *)

Lemma environ_get_default_run name dflt w :
  environ_get_default name dflt w = (Return (default dflt (environ w !! name)), []).
Proof. reflexivity. Qed.

(** C7, as stated, fails: the server type "mpp" contains "mpp", both
    output-library variables are set, and [get_casout_lib] answers with the
    base variable's value. *)
Lemma get_casout_lib_mpp_without_dot :
  let w := world_without_lua {[ "CASOUTLIB" := "base"; "CASMPPOUTLIB" := "override" ]} ∅ ∅ in
  Py.contains "mpp" "mpp" = true
  ∧ environ w !! "CASOUTLIB" = Some "base"
  ∧ environ w !! "CASMPPOUTLIB" = Some "override"
  ∧ result (get_casout_lib "mpp") w = Return "base".
Proof. vm_compute. done. Qed.

(** C7, amended: for every server type that contains ".mpp" (with the
    dot), each function on its own returns the value of its MPP-specific
    variable whenever that variable is set, whatever the base variable
    and every other variable hold: [get_casout_lib] that of
    [CASMPPOUTLIB], [get_cas_data_lib] that of [CASMPPDATALIB]. *)
Theorem mpp_override_takes_precedence (w : World) (server_type : string) :
  Py.contains ".mpp" server_type = true →
  (∀ out : string,
     environ w !! "CASMPPOUTLIB" = Some out →
     get_casout_lib server_type w = (Return out, []))
  ∧ (∀ data : string,
       environ w !! "CASMPPDATALIB" = Some data →
       get_cas_data_lib server_type w = (Return data, [])).
Proof.
  intros Hmpp. split.
  - intros out Hout. unfold get_casout_lib, bind.
    by rewrite !environ_get_default_run, Hmpp, !environ_get_default_run, Hout.
  - intros data Hdata. unfold get_cas_data_lib, bind.
    by rewrite !environ_get_default_run, Hmpp, !environ_get_default_run, Hdata.
Qed.

Lemma mpp_override_takes_precedence_witness :
  get_casout_lib "linux.mpp.nohdfs"
    (world_without_lua {[ "CASOUTLIB" := "base"; "CASMPPOUTLIB" := "override" ]} ∅ ∅)
  = (Return "override", [])
  ∧ get_cas_data_lib "linux.mpp.nohdfs"
      (world_without_lua {[ "CASDATALIB" := "data"; "CASMPPDATALIB" := "mppdata" ]} ∅ ∅)
    = (Return "mppdata", []).
Proof.
  split.
  - apply (proj1 (mpp_override_takes_precedence _ "linux.mpp.nohdfs" eq_refl)).
    reflexivity.
  - apply (proj2 (mpp_override_takes_precedence _ "linux.mpp.nohdfs" eq_refl)).
    reflexivity.
Defined.

(** *** Credentials *)

(** C10: [get_user_pass] returns the values of [CASUSER] and [CASPASSWORD],
    [None] for a variable that is not set, and touches no file: its log is
    empty, whatever the file system holds. *)
Theorem get_user_pass_environment_only (w : World) :
  get_user_pass w
  = (Return (environ w !! "CASUSER", environ w !! "CASPASSWORD"), []).
Proof.
  destruct (environ w !! "CASUSER") as [u|] eqn:Hu;
    destruct (environ w !! "CASPASSWORD") as [pw|] eqn:Hp;
    cbv [get_user_pass bind environ_contains environ_item ask ret raise];
    rewrite ?Hu, ?Hp; cbn; rewrite ?Hu, ?Hp; reflexivity.
Qed.

(** *** Comparison helpers *)

Lemma sorted_Permutation (a a' : list Z) : a ≡ₚ a' → sorted a = sorted a'.
Proof.
  intros Hperm. unfold sorted.
  apply (Sorted_unique Z.le); try apply Sorted_merge_sort; try apply _.
  by rewrite !merge_sort_Permutation.
Qed.

Lemma fillna_Permutation (fill : Z) (a a' : list cell) :
  a ≡ₚ a' → fillna fill a ≡ₚ fillna fill a'.
Proof. intros Hperm. unfold fillna. by apply Permutation_map. Qed.

Lemma sorted_eq_Permutation (a b : list Z) : sorted a = sorted b ↔ a ≡ₚ b.
Proof.
  split; [|apply sorted_Permutation].
  unfold sorted. intros Heq.
  by rewrite <- (merge_sort_Permutation Z.le a), Heq, merge_sort_Permutation.
Qed.

(** C9: with [sort=True] the columns [3,1,2] and [1,2,3] compare equal,
    and with [sort=False] the comparison of the same columns fails.  With
    [sort=True] the comparison looks at the elements and not at their
    order: it passes exactly when, after missing values are filled, the
    two columns hold the same elements the same number of times, and it
    raises [AssertionError] in every other case; so its outcome is the
    same for any rearrangement of either column. *)
Theorem assertColsEqual_sort (w : World) (fill : Z) :
  assertColsEqual [Some 3; Some 1; Some 2] [Some 1; Some 2; Some 3] fill true w
  = (Return tt, [])
  ∧ assertColsEqual [Some 3; Some 1; Some 2] [Some 1; Some 2; Some 3] fill false w
    = (Raise Py.AssertionError, [])
  ∧ (∀ a b : list cell,
       (assertColsEqual a b fill true w = (Return tt, [])
        ↔ fillna fill a ≡ₚ fillna fill b)
       ∧ (¬ fillna fill a ≡ₚ fillna fill b →
          assertColsEqual a b fill true w = (Raise Py.AssertionError, [])))
  ∧ (∀ a a' b b' : list cell,
       a ≡ₚ a' → b ≡ₚ b' →
       assertColsEqual a b fill true w = assertColsEqual a' b' fill true w).
Proof.
  split; [reflexivity|]. split; [reflexivity|]. split.
  - intros a b. unfold assertColsEqual, assertEqual.
    rewrite <- sorted_eq_Permutation. case_bool_decide; naive_solver.
  - intros a a' b b' Ha Hb. unfold assertColsEqual.
    by rewrite (sorted_Permutation _ _ (fillna_Permutation fill _ _ Ha)),
               (sorted_Permutation _ _ (fillna_Permutation fill _ _ Hb)).
Qed.

Lemma assertColsEqual_sort_witness :
  let w := world_without_lua ∅ ∅ ∅ in
  assertColsEqual [Some 1] [Some 2] 7 true w = (Raise Py.AssertionError, [])
  ∧ assertColsEqual [Some 3; None; Some 2] [Some 7; Some 2; Some 3] 7 true w
    = assertColsEqual [None; Some 2; Some 3] [Some 2; Some 3; Some 7] 7 true w.
Proof.
  intros w. split.
  - apply (proj2 (proj1 (proj2 (proj2 (assertColsEqual_sort w 7))) [Some 1] [Some 2])).
    intros Hperm. apply Permutation_singleton_l in Hperm. discriminate Hperm.
  - apply (proj2 (proj2 (proj2 (assertColsEqual_sort w 7)))).
    + apply (Permutation_cons_append [None; Some 2] (Some 3)).
    + apply (Permutation_cons_append [Some 2; Some 3] (Some 7)).
Defined.

(** What the loop over the zipped records checks. *)
Lemma for_each_assertEqual (w : World) (rows : list (list Z * list Z)) :
  for_each (fun r => assertEqual (fst r) (snd r)) rows w = (Return tt, [])
  ↔ Forall (fun r => fst r = snd r) rows.
Proof.
  induction rows as [|[x y] rows IH]; cbn.
  - split; [constructor | reflexivity].
  - unfold bind, assertEqual. cbn. case_bool_decide; cbn.
    + destruct (for_each _ rows w) as [o t] eqn:Hrun. cbn. split.
      * intros Heq. constructor; [done|]. apply IH. by simplify_eq.
      * intros Hall. inversion Hall; subst.
        assert ((o, t) = (Return tt, [])) as Heq by by apply IH. by simplify_eq.
    + split; [done|]. intros Hall. by inversion Hall.
Qed.

(** Without a sort key, [assertTablesEqual] passes exactly when the column
    lists are equal and the records agree pairwise as far as both tables
    have records. *)
Lemma assertTablesEqual_unsorted sort_values (w : World) (a b : frame) (fill : Z) :
  assertTablesEqual sort_values a b fill None w = (Return tt, [])
  ↔ columns a = columns b
    ∧ Forall (fun r => fst r = snd r)
             (zip (map (fillna fill) (records a)) (map (fillna fill) (records b))).
Proof.
  unfold assertTablesEqual, bind at 1 2 3. cbn. unfold assertEqual at 1.
  case_bool_decide; cbn.
  - destruct (for_each _ _ w) as [o t] eqn:Hrun. rewrite <- for_each_assertEqual, Hrun.
    split; [intros Heq; by simplify_eq | intros [_ Heq]; by simplify_eq].
  - split; [done | by intros [? _]].
Qed.

(** C6 at the failing input: the two tables differ in their number of
    records, and [assertTablesEqual] reports nothing, because [zip] stops
    at the end of the shorter list. *)
Theorem assertTablesEqual_ignores_extra_rows sort_values (w : World) (fill : Z) :
  one_row ≠ two_rows
  ∧ length (records one_row) ≠ length (records two_rows)
  ∧ assertTablesEqual sort_values one_row two_rows fill None w = (Return tt, [])
  ∧ assertTablesEqual sort_values two_rows one_row fill None w = (Return tt, []).
Proof. repeat split; (done || (cbn; lia)). Qed.

(** [assertColsEqual] does see the difference in length on the same data. *)
Lemma assertColsEqual_sees_extra_elements (w : World) (fill : Z) (sort : bool) :
  result (assertColsEqual [Some 1] [Some 1; Some 2] fill sort) w
  = Raise Py.AssertionError.
Proof. by destruct sort. Qed.

(** *** Running computations step by step *)

Lemma run_eta {A} (m : M A) (w : World) : m w = (result m w, log m w).
Proof. unfold result, log. by destruct (m w). Qed.

Lemma result_bind {A B} (m : M A) (f : A → M B) (w : World) :
  result (bind m f) w
  = match result m w with
    | Return a => result (f a) w
    | Raise e => Raise e
    | OutOfFuel => OutOfFuel
    end.
Proof.
  unfold result, bind. destruct (m w) as [[a|e|] t]; cbn; [|reflexivity..].
  destruct (f a w); reflexivity.
Qed.

Lemma log_bind {A B} (m : M A) (f : A → M B) (w : World) :
  log (bind m f) w
  = (log m w ++ match result m w with
                | Return a => log (f a) w
                | _ => []
                end)%list.
Proof.
  unfold result, log, bind. destruct (m w) as [[a|e|] t]; cbn;
    [destruct (f a w); reflexivity | by rewrite app_nil_r..].
Qed.

Lemma result_ret {A} (a : A) w : result (ret a) w = Return a.
Proof. reflexivity. Qed.
Lemma result_raise {A} e w : result (@raise A e) w = Raise e.
Proof. reflexivity. Qed.
Lemma result_ask w : result ask w = Return w.
Proof. reflexivity. Qed.
Lemma result_emit ev w : result (emit ev) w = Return tt.
Proof. reflexivity. Qed.
Lemma result_lift {A} (r : Py.exn + A) w :
  result (lift r) w = match r with inl e => Raise e | inr a => Return a end.
Proof. by destruct r. Qed.
Lemma result_environ_get name w :
  result (environ_get name) w = Return (environ w !! name).
Proof. reflexivity. Qed.
Lemma result_environ_get_default name dflt w :
  result (environ_get_default name dflt) w = Return (default dflt (environ w !! name)).
Proof. reflexivity. Qed.
Lemma result_expanduser path w :
  result (expanduser path) w = Return (expanduser_in w path).
Proof. reflexivity. Qed.
Lemma result_abspath path w :
  result (abspath path) w = Return (abspath_in w path).
Proof. reflexivity. Qed.
Lemma result_isfile path w : result (isfile path) w = Return (is_file w path).
Proof. reflexivity. Qed.
Lemma result_exists path w : result (exists_ path) w = Return (path_exists w path).
Proof. reflexivity. Qed.
Lemma result_samefile f1 f2 w :
  result (samefile f1 f2) w
  = match stat w f1, stat w f2 with
    | Some (id1, _), Some (id2, _) => Return (id1 =? id2)
    | _, _ => Raise Py.OSError
    end.
Proof.
  unfold samefile. rewrite !result_bind, result_emit, result_ask.
  destruct (stat w f1) as [[id1 r1]|]; [|done].
  rewrite result_bind, result_emit.
  by destruct (stat w f2) as [[id2 r2]|].
Qed.

Create Rewrite HintDb run.
#[local] Hint Rewrite @result_bind @result_ret @result_raise result_ask result_emit
  @result_lift result_environ_get result_environ_get_default result_expanduser
  result_abspath result_isfile result_exists result_samefile : run.

(** *** The search for [.casrc] *)

(** One turn of the loop decides: a further turn is never taken, because
    the second [samefile] compares a directory with itself. *)
Lemma search_loop_one_turn (fuel : nat) (w : World) (homepath : string) :
  result (search_loop (S fuel) ".casrc" homepath (cfgfile_of w)) w
  = if is_file w (cfgfile_of w) then Return tt
    else match stat w (PosixPath.dirname homepath),
               stat w (PosixPath.dirname (cfgfile_of w)) with
         | Some _, Some _ => Return tt
         | _, _ => Raise Py.OSError
         end.
Proof.
  cbn [search_loop]. autorewrite with run.
  destruct (is_file w (cfgfile_of w)); [done|].
  autorewrite with run.
  destruct (stat w (PosixPath.dirname homepath)) as [[id1 r1]|]; [|done].
  fold (cfgfile_of w).
  destruct (stat w (PosixPath.dirname (cfgfile_of w))) as [[id2 r2]|] eqn:Hcwd; [|done].
  destruct (id1 =? id2); [done|].
  autorewrite with run. fold (cfgfile_of w). rewrite Hcwd, Z.eqb_refl. done.
Qed.

(** *** [get_host_port_proto] *)

(** The whole function, case by case. *)
Lemma get_host_port_proto_result (fuel : nat) (w : World) :
  result (get_host_port_proto (S fuel)) w
  = match environ_port w with
    | inl e => Raise e
    | inr port =>
        if truthy_str (environ w !! "CASHOST") && truthy_int port
        then Return (environ w !! "CASHOST", port, environ w !! "CASPROTOCOL")
        else
          match result (search_loop 1 ".casrc" (homepath_of w) (cfgfile_of w)) w with
          | Return _ =>
              match selected_casrc w with
              | Some casrc => result (_read_casrc casrc) w
              | None => Return (environ w !! "CASHOST", port, environ w !! "CASPROTOCOL")
              end
          | Raise e => Raise e
          | OutOfFuel => OutOfFuel
          end
    end.
Proof.
  assert (∀ dflt : params,
    match result (search_loop (S fuel) ".casrc" (homepath_of w) (cfgfile_of w)) w with
    | Return _ =>
        match result (isfile (cfgfile_of w)) w with
        | Return in_cwd =>
            result (if in_cwd then _read_casrc (cfgfile_of w) else
                    bind (exists_ (homepath_of w)) (fun in_home =>
                    if in_home then _read_casrc (homepath_of w) else
                    bind (exists_ upath) (fun on_u =>
                    if on_u then _read_casrc upath else ret dflt))) w
        | Raise e => Raise e
        | OutOfFuel => OutOfFuel
        end
    | Raise e => Raise e
    | OutOfFuel => OutOfFuel
    end
    = match result (search_loop 1 ".casrc" (homepath_of w) (cfgfile_of w)) w with
      | Return _ =>
          match selected_casrc w with
          | Some casrc => result (_read_casrc casrc) w
          | None => Return dflt
          end
      | Raise e => Raise e
      | OutOfFuel => OutOfFuel
      end) as Hsearch.
  { intros dflt. rewrite !search_loop_one_turn. unfold selected_casrc.
    autorewrite with run.
    destruct (is_file w (cfgfile_of w)); [done|].
    destruct (stat w (PosixPath.dirname (homepath_of w))); [|done].
    destruct (stat w (PosixPath.dirname (cfgfile_of w))); [|done].
    autorewrite with run. destruct (path_exists w (homepath_of w)); [done|].
    autorewrite with run. by destruct (path_exists w upath). }
  unfold get_host_port_proto, environ_port.
  autorewrite with run.
  destruct (environ w !! "CASPORT") as [s|]; autorewrite with run.
  - destruct (Py.int (Py.VStr s)) as [e|n]; [done|]. autorewrite with run.
    destruct (truthy_str (environ w !! "CASHOST") && truthy_int (Some n)); [done|].
    autorewrite with run. apply Hsearch.
  - destruct (truthy_str (environ w !! "CASHOST") && truthy_int None); [done|].
    autorewrite with run. apply Hsearch.
Qed.

Lemma log_environ_get name w : log (environ_get name) w = [].
Proof. reflexivity. Qed.
Lemma log_ret {A} (a : A) w : log (ret a) w = [].
Proof. reflexivity. Qed.
Lemma log_lift {A} (r : Py.exn + A) w : log (lift r) w = [].
Proof. by destruct r. Qed.

#[local] Hint Rewrite @log_bind log_environ_get @log_ret @log_lift : run.

(** When [int] rejects the port, the exception leaves the function before
    anything else happens. *)
Lemma get_host_port_proto_port_error (fuel : nat) (w : World) (e : Py.exn) :
  environ_port w = inl e →
  get_host_port_proto fuel w = (Raise e, []).
Proof.
  unfold environ_port. intros Hport. rewrite run_eta.
  unfold get_host_port_proto. autorewrite with run.
  destruct (environ w !! "CASPORT") as [s|]; [|done].
  destruct (Py.int (Py.VStr s)) as [e'|n]; [|done].
  autorewrite with run. by simplify_eq.
Qed.

(** When the environment gives a host and a port that both count as true,
    they are returned at once. *)
Lemma get_host_port_proto_from_environ (fuel : nat) (w : World) (port : option Z) :
  environ_port w = inr port →
  truthy_str (environ w !! "CASHOST") && truthy_int port = true →
  get_host_port_proto fuel w
  = (Return (environ w !! "CASHOST", port, environ w !! "CASPROTOCOL"), []).
Proof.
  unfold environ_port. intros Hport Htrue. rewrite run_eta.
  unfold get_host_port_proto. autorewrite with run.
  destruct (environ w !! "CASPORT") as [s|].
  - destruct (Py.int (Py.VStr s)) as [e'|n]; [done|]. simplify_eq.
    autorewrite with run. rewrite Htrue. by autorewrite with run.
  - simplify_eq. autorewrite with run. rewrite Htrue. by autorewrite with run.
Qed.

(** C1, as stated, fails: with host "envhost" and port "0" in the
    environment the function goes on to the file system and returns what
    the [.casrc] in the working directory says. *)
Lemma port_zero_consults_file :
  environ world_port_zero !! "CASHOST" = Some "envhost"
  ∧ environ world_port_zero !! "CASPORT" = Some "0"
  ∧ Py.int_of_str "0" = Some 0
  ∧ get_host_port_proto 1 world_port_zero
    = (Return (Some "a.b.c", Some 5570, None),
       [ EvStat "/work/.casrc"; EvStat "/work/.casrc"; EvStat "/work/.casrc";
         EvImportLupa; EvSubprocess "lua - /work/.casrc"; EvOpen "/work/.casrc" ]).
Proof. vm_compute. done. Qed.

(** C1, amended: when the environment sets the host to a non-empty string
    and the port to a number other than zero, [get_host_port_proto]
    returns that host, that number and the protocol variable's value (or
    [None]), and its log is empty: no file is looked for or read. *)
Theorem host_and_port_from_environment (fuel : nat) (w : World)
    (host port : string) (n : Z) :
  environ w !! "CASHOST" = Some host → host ≠ "" →
  environ w !! "CASPORT" = Some port → Py.int_of_str port = Some n → n ≠ 0 →
  get_host_port_proto fuel w
  = (Return (Some host, Some n, environ w !! "CASPROTOCOL"), []).
Proof.
  intros Hhost Hne Hport Hint Hnz.
  rewrite (get_host_port_proto_from_environ fuel w (Some n)).
  - by rewrite Hhost.
  - unfold environ_port. rewrite Hport. cbn. by rewrite Hint.
  - rewrite Hhost. cbn. apply andb_true_iff. split; apply negb_true_iff.
    + by apply String.eqb_neq.
    + by apply Z.eqb_neq.
Qed.

Lemma host_and_port_from_environment_witness :
  let w := world_without_lua {[ "CASHOST" := "a.b.c"; "CASPORT" := "5570" ]} ∅ ∅ in
  get_host_port_proto 0 w
  = (Return (Some "a.b.c", Some 5570, environ w !! "CASPROTOCOL"), []).
Proof.
  intros w.
  apply (host_and_port_from_environment 0 w "a.b.c" "5570" 5570);
    [reflexivity | discriminate | reflexivity | reflexivity | lia].
Defined.

(** C8: when the port variable holds a string that [int] rejects,
    [get_host_port_proto] raises (the [ValueError] of [int]) and returns no
    tuple. *)
Theorem non_numeric_port_raises (fuel : nat) (w : World) (port : string) :
  environ w !! "CASPORT" = Some port → Py.int_of_str port = None →
  get_host_port_proto fuel w = (Raise Py.ValueError, []).
Proof.
  intros Hport Hint. apply get_host_port_proto_port_error.
  unfold environ_port. rewrite Hport. cbn. by rewrite Hint.
Qed.

Lemma non_numeric_port_raises_witness :
  get_host_port_proto 1 world_bad_port = (Raise Py.ValueError, []).
Proof.
  apply (non_numeric_port_raises 1 world_bad_port "abc"); reflexivity.
Defined.

(** C3 at the failing input: the environment sets neither host nor port,
    [HOME] names a directory that does not exist, and none of the three
    candidates is there.  The call does not return what the environment
    gave: [samefile] in the search loop asks [os.stat] about the home
    directory and raises [OSError], however many turns the loop is
    allowed.  The tests that follow the loop ([isfile], [exists]) take a
    missing path for an answer. *)
Theorem no_candidate_missing_home_raises (fuel : nat) :
  environ world_missing_home !! "CASHOST" = None
  ∧ environ world_missing_home !! "CASPORT" = None
  ∧ path_exists world_missing_home (cfgfile_of world_missing_home) = false
  ∧ path_exists world_missing_home (homepath_of world_missing_home) = false
  ∧ path_exists world_missing_home upath = false
  ∧ result (get_host_port_proto (S fuel)) world_missing_home = Raise Py.OSError.
Proof.
  do 5 (split; [by vm_compute|]).
  rewrite get_host_port_proto_result. by vm_compute.
Qed.

(** X28: when the port variable is unset or holds a number, the two
    directories the search loop compares (the home directory and the
    working directory) can be examined, and none of the three candidates
    is there, [get_host_port_proto] returns, for any positive fuel, the
    host, port and protocol read from the environment (each [None] when
    its variable is unset). *)
Theorem no_candidate_returns_environment (fuel : nat) (w : World) (port : option Z) :
  environ_port w = inr port →
  is_Some (stat w (PosixPath.dirname (homepath_of w))) →
  is_Some (stat w (PosixPath.dirname (cfgfile_of w))) →
  is_file w (cfgfile_of w) = false →
  path_exists w (homepath_of w) = false →
  path_exists w upath = false →
  result (get_host_port_proto (S fuel)) w
  = Return (environ w !! "CASHOST", port, environ w !! "CASPROTOCOL").
Proof.
  intros Hport [sh Hhome] [sc Hcwd] Hcfg Hhomerc Hu.
  rewrite get_host_port_proto_result, Hport, search_loop_one_turn.
  unfold selected_casrc. rewrite Hcfg, Hhome, Hcwd, Hhomerc, Hu.
  by destruct (truthy_str (environ w !! "CASHOST") && truthy_int port).
Qed.

Lemma no_candidate_returns_environment_witness :
  result (get_host_port_proto 1) world_bare
  = Return (environ world_bare !! "CASHOST", None, environ world_bare !! "CASPROTOCOL").
Proof.
  apply (no_candidate_returns_environment 0 world_bare None).
  - reflexivity.
  - vm_compute. eauto.
  - vm_compute. eauto.
  - reflexivity.
  - reflexivity.
  - reflexivity.
Defined.

(** *** [_read_casrc] *)












(** What the manual scrape finds in the two-line configuration file. *)
Lemma scrape_casrc_text :
  Re.findall2 false assign_re (Re.sub true comment_re " " casrc_text)
  = [("cashost", quoted "a.b.c"); ("casport", "5570")].
Proof. by vm_compute. Qed.

(** A trailing comment leaves the scrape unchanged. *)
Lemma scrape_ignores_comment :
  Re.findall2 false assign_re (Re.sub true comment_re " " "casport = 5570 -- default port")
  = Re.findall2 false assign_re (Re.sub true comment_re " " "casport = 5570").
Proof. by vm_compute. Qed.

(** C5: when the manual scrape is reached (no [lupa], nothing printed by
    [lua]) on a file that holds the assignments [cashost = "a.b.c"] and
    [casport = 5570] and no comment, [_read_casrc] returns host "a.b.c",
    port 5570 and no protocol. *)
Theorem manual_scrape_reads_host_and_port (w : World) (path : string) :
  is_file w path = true →
  lupa w = None →
  default "" (Py.bytes_strip <$> check_output w ("lua - " ++ path)) = "" →
  file_text w path = Some casrc_text →
  result (_read_casrc path) w = Return (Some "a.b.c", Some 5570, None).
Proof.
  intros Hfile Hlupa Hlua Htext.
  unfold _read_casrc. autorewrite with run. rewrite Hfile. cbn [negb].
  autorewrite with run. rewrite Hlupa.
  unfold read_without_lupa. autorewrite with run.
  assert (∀ k : M globals,
            result match Py.bytes_strip <$> check_output w ("lua - " ++ path) with
                   | Some (String c cfg) =>
                       ret (LuaGlobals (set_strings
                              (Re.findall2 true output_re (String c cfg))))
                   | _ => k
                   end w = result k w) as ->.
  { intros k. by destruct (Py.bytes_strip <$> check_output w _) as [[|c cfg]|]. }
  autorewrite with run. rewrite Htext. autorewrite with run.
  rewrite scrape_casrc_text. by vm_compute.
Qed.

Lemma manual_scrape_reads_host_and_port_witness :
  result (_read_casrc "/work/.casrc") world_port_zero
  = Return (Some "a.b.c", Some 5570, None).
Proof.
  apply (manual_scrape_reads_host_and_port world_port_zero "/work/.casrc");
    reflexivity.
Defined.

(** C4: when the globals lack [cashost] or [casport], the last stage of
    [_read_casrc] returns no tuple; what reaches the caller is the
    [NameError] for the name [sys], which the module never imports.  The
    log is empty: the message for the missing setting is not written, and
    [sys.exit(1)] is not reached. *)
Theorem read_settings_missing_field (lg : globals) (w : World) :
  lg "cashost" = None ∨ lg "casport" = None →
  read_settings lg w = (Raise (Py.NameError "sys"), []).
Proof.
  intros Hmissing. unfold read_settings, getattr, bind at 1, try_except at 1.
  destruct (lg "cashost") as [host|] eqn:Hhost; [|done].
  destruct Hmissing as [|Hport]; [done|]. cbn.
  unfold bind at 1, try_except at 1. by rewrite Hport.
Qed.

Lemma read_settings_missing_field_witness :
  read_settings (LuaGlobals {[ "cashost" := Py.VStr "a.b.c" ]}) world_casrc_without_port
  = (Raise (Py.NameError "sys"), []).
Proof.
  apply read_settings_missing_field. right. reflexivity.
Defined.

(** The same from the file: a [.casrc] with a host and no port. *)
Lemma _read_casrc_without_port :
  _read_casrc "/work/.casrc" world_casrc_without_port
  = (Raise (Py.NameError "sys"),
     [ EvStat "/work/.casrc"; EvImportLupa;
       EvSubprocess "lua - /work/.casrc"; EvOpen "/work/.casrc" ]).
Proof. by vm_compute. Qed.

(** Had the module imported [sys], the handler would still not print: the
    attribute it asks for is [sterr]. *)
Lemma sys_has_no_sterr (w : World) :
  sys_getattr "sterr" w = (Raise (Py.AttributeError "sterr"), []).
Proof. reflexivity. Qed.

(** A globals object that answers [None] for an unset name does not even
    raise for a missing host: the host comes back as the text "None". *)
Lemma read_settings_nil_host (w : World) :
  read_settings (nil_for_unset {[ "casport" := Py.VInt 5570 ]}) w
  = (Return (Some "None", Some 5570, None), []).
Proof. reflexivity. Qed.

(** *** The library models on concrete inputs *)

Example int_of_str_plain : Py.int_of_str "5570" = Some 5570.
Proof. reflexivity. Qed.
Example int_of_str_spaces_sign : Py.int_of_str (" -12_000 " ++ nl) = Some (-12000).
Proof. reflexivity. Qed.
Example int_of_str_letters : Py.int_of_str "55a" = None.
Proof. reflexivity. Qed.
Example int_of_str_empty : Py.int_of_str "" = None.
Proof. reflexivity. Qed.
Example str_of_int_negative : Py.str_of_int (-42) = "-42".
Proof. reflexivity. Qed.
Example contains_dot_mpp : Py.contains ".mpp" "linux.mpp.nohdfs" = true.
Proof. reflexivity. Qed.
Example contains_smp : Py.contains ".mpp" "linux.smp" = false.
Proof. reflexivity. Qed.
Example join_u : PosixPath.join "u:" ".casrc" = "u:/.casrc".
Proof. reflexivity. Qed.
Example join_absolute : PosixPath.join "/home/u" "/etc/.casrc" = "/etc/.casrc".
Proof. reflexivity. Qed.
Example dirname_root : PosixPath.dirname "/.casrc" = "/".
Proof. reflexivity. Qed.
Example dirname_nested : PosixPath.dirname "/home/u/.casrc" = "/home/u".
Proof. reflexivity. Qed.
Example normpath_dots : PosixPath.normpath "/a//b/../c/./d/" = "/a/c/d".
Proof. reflexivity. Qed.
Example normpath_two_slashes : PosixPath.normpath "//x/.." = "//".
Proof. reflexivity. Qed.
Example expanduser_home_unset :
  expanduser_in world_bare "~" = "/home/u".
Proof. reflexivity. Qed.
Example cfgfile_of_work : cfgfile_of world_bare = "/work/.casrc".
Proof. reflexivity. Qed.
Example homepath_of_missing_home : homepath_of world_missing_home = "/nohome/.casrc".
Proof. reflexivity. Qed.
Example sub_comments :
  Re.sub true comment_re " " ("casport = 5570 -- default port" ++ nl ++ "x -- y" ++ nl)
  = ("casport = 5570  " ++ nl ++ "x  " ++ nl)%string.
Proof. by vm_compute. Qed.
Example findall_output :
  Re.findall2 true output_re ("cashost  my.host " ++ nl ++ " casport 5570")
  = [("cashost", "my.host"); ("casport", "5570")].
Proof. by vm_compute. Qed.
Example findall_assign_word_boundary :
  Re.findall2 false assign_re "xcasfoo=1 casbar=2" = [("casbar", "2")].
Proof. by vm_compute. Qed.
Example int_literal_zero_padded :
  int_literal (Py.chars "007") = None ∧ int_literal (Py.chars "0") = Some 0.
Proof. done. Qed.

(** *** Library names, case by case *)

Lemma get_casout_lib_run (server_type : string) (w : World) :
  get_casout_lib server_type w
  = (Return (if Py.contains ".mpp" server_type
             then default (default "CASUSER" (environ w !! "CASOUTLIB"))
                          (environ w !! "CASMPPOUTLIB")
             else default "CASUSER" (environ w !! "CASOUTLIB")), []).
Proof.
  unfold get_casout_lib, bind. rewrite environ_get_default_run.
  destruct (Py.contains ".mpp" server_type); by rewrite ?environ_get_default_run.
Qed.

Lemma get_cas_data_lib_run (server_type : string) (w : World) :
  get_cas_data_lib server_type w
  = (Return (if Py.contains ".mpp" server_type
             then default "HPS" (environ w !! "CASMPPDATALIB")
             else default "CASTestTmp" (environ w !! "CASDATALIB")), []).
Proof.
  unfold get_cas_data_lib, bind. rewrite environ_get_default_run.
  destruct (Py.contains ".mpp" server_type); by rewrite ?environ_get_default_run.
Qed.

(** X1: on a server type with ".mpp" and no MPP-specific variables, the
    output library falls back to the base variable (or "CASUSER"), but the
    data library is "HPS" whatever [CASDATALIB] holds. *)
Theorem mpp_without_override (w : World) (server_type : string) :
  Py.contains ".mpp" server_type = true →
  environ w !! "CASMPPOUTLIB" = None →
  environ w !! "CASMPPDATALIB" = None →
  get_casout_lib server_type w
  = (Return (default "CASUSER" (environ w !! "CASOUTLIB")), [])
  ∧ get_cas_data_lib server_type w = (Return "HPS", []).
Proof.
  intros Hmpp Hout Hdata.
  by rewrite get_casout_lib_run, get_cas_data_lib_run, Hmpp, Hout, Hdata.
Qed.

Lemma mpp_without_override_witness :
  let w := world_without_lua {[ "CASOUTLIB" := "base"; "CASDATALIB" := "data" ]} ∅ ∅ in
  get_casout_lib "linux.mpp" w
  = (Return (default "CASUSER" (environ w !! "CASOUTLIB")), [])
  ∧ get_cas_data_lib "linux.mpp" w = (Return "HPS", []).
Proof.
  intros w. apply (mpp_without_override w "linux.mpp"); reflexivity.
Defined.

(** On a server type without ".mpp" the MPP-specific variables are
    ignored, set or not: both functions answer with the base variable, or
    with "CASUSER" and "CASTestTmp" when it is unset. *)
Theorem smp_ignores_mpp_variables (w : World) (server_type : string) :
  Py.contains ".mpp" server_type = false →
  get_casout_lib server_type w
  = (Return (default "CASUSER" (environ w !! "CASOUTLIB")), [])
  ∧ get_cas_data_lib server_type w
    = (Return (default "CASTestTmp" (environ w !! "CASDATALIB")), []).
Proof.
  intros Hsmp. by rewrite get_casout_lib_run, get_cas_data_lib_run, Hsmp.
Qed.

Lemma smp_ignores_mpp_variables_witness :
  let w := world_without_lua
             {[ "CASMPPOUTLIB" := "override"; "CASMPPDATALIB" := "mppdata" ]} ∅ ∅ in
  get_casout_lib "linux.smp" w
  = (Return (default "CASUSER" (environ w !! "CASOUTLIB")), [])
  ∧ get_cas_data_lib "linux.smp" w
    = (Return (default "CASTestTmp" (environ w !! "CASDATALIB")), []).
Proof.
  intros w. apply (smp_ignores_mpp_variables w "linux.smp"). reflexivity.
Defined.

(** *** The comparison helpers, in full *)

(** X2: [assertColsEqual] passes exactly when, after missing values are
    replaced by the fill value, the two columns are equal ([sort=False]) or
    are rearrangements of each other ([sort=True]); in every other case it
    raises [AssertionError]. *)
Theorem assertColsEqual_passes_iff (w : World) (a b : list cell) (fill : Z)
    (sort : bool) :
  let same := if sort then fillna fill a ≡ₚ fillna fill b
              else fillna fill a = fillna fill b in
  (assertColsEqual a b fill sort w = (Return tt, []) ↔ same)
  ∧ (¬ same → assertColsEqual a b fill sort w = (Raise Py.AssertionError, [])).
Proof.
  unfold assertColsEqual, assertEqual. destruct sort; cbn.
  - rewrite <- sorted_eq_Permutation. case_bool_decide; naive_solver.
  - case_bool_decide; naive_solver.
Qed.

Lemma assertColsEqual_passes_iff_witness :
  assertColsEqual [Some 1; None] [Some 1; Some 5] 0 true world_bare
  = (Raise Py.AssertionError, []).
Proof.
  apply (proj2 (assertColsEqual_passes_iff world_bare _ _ 0 true)).
  intros Hperm. apply Permutation_cons_inv in Hperm.
  apply Permutation_singleton_l in Hperm. discriminate Hperm.
Defined.

(** X3: without a sort key, [assertTablesEqual] passes exactly when the
    column lists are equal and, after missing values are replaced by the
    fill value, the records agree pairwise as far as both tables have
    records; in every other case it raises [AssertionError]. *)
Theorem assertTablesEqual_passes_iff sort_values (w : World) (a b : frame)
    (fill : Z) :
  let same :=
    columns a = columns b
    ∧ Forall (fun r => fst r = snd r)
             (zip (map (fillna fill) (records a)) (map (fillna fill) (records b))) in
  (assertTablesEqual sort_values a b fill None w = (Return tt, []) ↔ same)
  ∧ (¬ same →
     assertTablesEqual sort_values a b fill None w = (Raise Py.AssertionError, [])).
Proof.
  split; [apply assertTablesEqual_unsorted|].
  intros Hdiff.
  assert (∀ rows : list (list Z * list Z),
            ¬ Forall (fun r => fst r = snd r) rows →
            for_each (fun r => assertEqual (fst r) (snd r)) rows w
            = (Raise Py.AssertionError, [])) as Hrows.
  { induction rows as [|[x y] rows IH]; intros Hne.
    - destruct Hne. constructor.
    - cbn [for_each]. unfold bind. unfold assertEqual at 1. cbn [fst snd].
      case_bool_decide as Hxy; [|done]. cbn -[for_each].
      rewrite IH; [done|]. intros Hall. apply Hne. by constructor. }
  unfold assertTablesEqual, bind at 1 2 3. cbn. unfold assertEqual at 1.
  case_bool_decide as Hcols; cbn; [|done].
  destruct (for_each _ _ w) as [o t] eqn:Hrun.
  assert ((o, t) = (Raise Py.AssertionError, [])) as [= -> ->]; [|done].
  rewrite <- Hrun. apply Hrows. intros Hall. apply Hdiff. by split.
Qed.

Lemma assertTablesEqual_passes_iff_witness :
  assertTablesEqual (fun _ f => inr f)
    {| columns := ["x"]; records := [[Some 1]] |}
    {| columns := ["x"]; records := [[Some 2]] |} 0 None world_bare
  = (Raise Py.AssertionError, []).
Proof.
  apply (proj2 (assertTablesEqual_passes_iff _ _ _ _ _)).
  intros [_ Hall]. inversion Hall as [|?? Heq]. discriminate Heq.
Defined.

(** X4: without a sort key, two tables pass as soon as their column lists
    are equal and their records are equal after missing values are
    replaced by the fill value: a missing cell and a cell that holds the
    fill value are not told apart, and every table passes against itself. *)
Theorem assertTablesEqual_equal_after_fill sort_values (w : World) (a b : frame)
    (fill : Z) :
  columns a = columns b →
  map (fillna fill) (records a) = map (fillna fill) (records b) →
  assertTablesEqual sort_values a b fill None w = (Return tt, []).
Proof.
  intros Hcols Hrecs. apply assertTablesEqual_unsorted. split; [done|].
  rewrite Hrecs. generalize (map (fillna fill) (records b)).
  induction l as [|x l IH]; cbn; by constructor.
Qed.

Lemma assertTablesEqual_equal_after_fill_witness :
  assertTablesEqual (fun _ f => inr f)
    {| columns := ["x"; "y"]; records := [[Some 1; None]; [None; Some 4]] |}
    {| columns := ["x"; "y"]; records := [[Some 1; Some (-999999)]; [Some (-999999); Some 4]] |}
    (-999999) None world_bare
  = (Return tt, []).
Proof. apply assertTablesEqual_equal_after_fill; reflexivity. Defined.

(** X5: with a non-empty sort key, [assertTablesEqual] is the comparison
    without a key of the two sorted tables; the first table's sort runs
    first, and when a sort fails nothing is compared and the failure is
    what the caller gets. *)
Theorem assertTablesEqual_sorts_first sort_values (w : World) (a b : frame)
    (fill : Z) (c : ascii) (key : string) :
  assertTablesEqual sort_values a b fill (Some (String c key)) w
  = match sort_values (String c key) a with
    | inl e => (Raise e, [])
    | inr a' =>
        match sort_values (String c key) b with
        | inl e => (Raise e, [])
        | inr b' => assertTablesEqual sort_values a' b' fill None w
        end
    end.
Proof.
  unfold assertTablesEqual.
  destruct (sort_values (String c key) a) as [e|a']; [reflexivity|].
  destruct (sort_values (String c key) b) as [e|b']; reflexivity.
Qed.

(** *** [assertContainsMessage] and [replaceNaN] *)

Lemma prefix_app (p s : string) :
  String.prefix p s = true ↔ ∃ rest, s = (p ++ rest)%string.
Proof.
  revert s. induction p as [|a p IH]; intros s; cbn.
  - split; [intros _; by exists s | by destruct s].
  - destruct s as [|b s].
    { split; [discriminate | intros [rest Heq]; discriminate]. }
    cbn. destruct (ascii_dec a b) as [->|Hne].
    + rewrite IH. split; intros [rest Heq]; exists rest.
      * by subst.
      * by inversion Heq.
    + split; [discriminate | intros [rest Heq]; by inversion Heq].
Qed.

(** The test [p in s] of the model is the substring relation. *)
Theorem contains_substring (p s : string) :
  Py.contains p s = true ↔ ∃ before after, s = (before ++ p ++ after)%string.
Proof.
  induction s as [|a s IH].
  - change (Py.contains p "") with (String.prefix p "" || false).
    rewrite orb_false_r, prefix_app. split.
    + intros [rest ->]. by exists "", rest.
    + intros [[|b before] [after Heq]]; [eauto | by inversion Heq].
  - change (Py.contains p (String a s))
      with (String.prefix p (String a s) || Py.contains p s).
    rewrite orb_true_iff, prefix_app, IH. split.
    + intros [[rest ->]|(before & after & ->)].
      * by exists "", rest.
      * by exists (String a before), after.
    + intros ([|b before] & after & Heq); [left; eauto|].
      right. exists before, after. by inversion Heq.
Qed.

(** X6: [assertContainsMessage] returns exactly when one of the messages
    holds the expected text as a substring; otherwise, and in particular
    for an empty list of messages, it raises [ValueError] (not the test
    failure exception). *)
Theorem assertContainsMessage_iff (w : World) (messages : list string)
    (expectedMsg : string) :
  (assertContainsMessage messages expectedMsg w = (Return tt, [])
   ↔ ∃ message before after,
       message ∈ messages ∧ message = (before ++ expectedMsg ++ after)%string)
  ∧ (assertContainsMessage messages expectedMsg w = (Return tt, [])
     ∨ assertContainsMessage messages expectedMsg w = (Raise Py.ValueError, [])).
Proof.
  induction messages as [|m messages [IH1 IH2]]; cbn.
  - split; [|by right]. split; [done|]. intros (? & ? & ? & Hin & _). by inversion Hin.
  - destruct (Py.contains expectedMsg m) eqn:Hm.
    + split; [|by left]. split; [|done]. intros _.
      apply contains_substring in Hm as (before & after & ->).
      exists (before ++ expectedMsg ++ after)%string, before, after.
      split; [by left|done].
    + split; [|done]. rewrite IH1. split.
      * intros (m' & before & after & Hin & ->). exists (before ++ expectedMsg ++ after)%string.
        exists before, after. split; [by right|done].
      * intros (m' & before & after & Hin & ->).
        inversion Hin as [|]; subst.
        -- assert (Py.contains expectedMsg (before ++ expectedMsg ++ after) = true)
             by (apply contains_substring; eauto). congruence.
        -- eauto 10.
Qed.

(** X7: [replaceNaN] returns the empty list for an empty row and raises
    [NameError] for every other row: it asks [pd.isnull] about the first
    element, and the module never imports [pd]. *)
Theorem replaceNaN_needs_pd (w : World) (row : list cell) (nan : cell) :
  replaceNaN row nan w
  = match row with
    | [] => (Return [], [])
    | _ :: _ => (Raise (Py.NameError "pd"), [])
    end.
Proof. by destruct row. Qed.

(** *** [get_cas_host_type] *)

Lemma hdfs_type_spec (items : list (string * Py.value)) :
  hdfs_type items = if existsb shows_hdfs items then "" else "nohdfs".
Proof.
  unfold hdfs_type. generalize "nohdfs".
  induction items as [|item items IH]; intros htype; [done|].
  cbn [foldl existsb]. rewrite IH. fold (shows_hdfs item).
  destruct (shows_hdfs item); cbn; [|done]. by destruct (existsb shows_hdfs items).
Qed.

(** The whole function, case by case. *)
Lemma get_cas_host_type_run (w : World) (s : Session) :
  get_cas_host_type w s
  = match about s with
    | inl e => (Raise e, [inr CallAbout])
    | inr (ostype, nodes) =>
        match os_name ostype with
        | None => (Raise Py.ValueError, [inr CallAbout])
        | Some name =>
            match querycaslib s "CASUSERHDFS" with
            | inl e => (Raise e, [inr CallAbout; inr (CallQuerycaslib "CASUSERHDFS")])
            | inr items =>
                (Return (name ++ (if (nodes =? 1)%Z then ".smp"
                                  else if existsb shows_hdfs items then ".mpp"
                                       else ".mpp.nohdfs"))%string,
                 [inr CallAbout; inr (CallQuerycaslib "CASUSERHDFS")])
            end
        end
    end.
Proof.
  unfold get_cas_host_type, rbind, send.
  destruct (about s) as [e|[ostype nodes]]; [done|]. cbn [fst snd].
  destruct (os_name ostype) as [name|]; [|done]. cbn.
  destruct (querycaslib s "CASUSERHDFS") as [e|items]; [done|].
  rewrite hdfs_type_spec.
  destruct (nodes =? 1); cbn; [done|].
  by destruct (existsb shows_hdfs items).
Qed.

(** X8: for a server whose OS family starts with LIN, WIN or OSX,
    [get_cas_host_type] asks the server twice ([about], then the query for
    CASUSERHDFS) and returns the OS name followed by ".smp" when the server
    has one node (whatever the HDFS query shows), by ".mpp" when it has
    another number of nodes and some item of the query with CASUSERHDFS in
    its key is true, and by ".mpp.nohdfs" otherwise. *)
Theorem get_cas_host_type_value (w : World) (s : Session) (ostype name : string)
    (nodes : Z) (items : list (string * Py.value)) :
  about s = inr (ostype, nodes) →
  os_name ostype = Some name →
  querycaslib s "CASUSERHDFS" = inr items →
  get_cas_host_type w s
  = (Return (name ++ (if (nodes =? 1)%Z then ".smp"
                      else if existsb shows_hdfs items then ".mpp"
                           else ".mpp.nohdfs"))%string,
     [inr CallAbout; inr (CallQuerycaslib "CASUSERHDFS")]).
Proof.
  intros Habout Hos Hquery.
  by rewrite get_cas_host_type_run, Habout, Hos, Hquery.
Qed.

Lemma get_cas_host_type_value_witness :
  get_cas_host_type world_bare session_without_table
  = (Return ("windows" ++ (if (1 =? 1)%Z then ".smp"
                           else if existsb shows_hdfs [("CASUSERHDFS(user)", Py.VInt 1)]
                                then ".mpp" else ".mpp.nohdfs"))%string,
     [inr CallAbout; inr (CallQuerycaslib "CASUSERHDFS")]).
Proof.
  apply (get_cas_host_type_value world_bare session_without_table "WIN64"); reflexivity.
Defined.

(** X9: when the OS family starts with none of LIN, WIN and OSX,
    [get_cas_host_type] raises [ValueError] right after [about]: the HDFS
    query is never sent. *)
Theorem get_cas_host_type_unknown_os (w : World) (s : Session) (ostype : string)
    (nodes : Z) :
  about s = inr (ostype, nodes) →
  os_name ostype = None →
  get_cas_host_type w s = (Raise Py.ValueError, [inr CallAbout]).
Proof.
  intros Habout Hos. by rewrite get_cas_host_type_run, Habout, Hos.
Qed.

Lemma get_cas_host_type_unknown_os_witness :
  get_cas_host_type world_bare
    {| st_file := ""; loadtable := fun _ _ _ => inr ∅; upload := fun _ _ => inr ∅;
       about := inr ("AIX", 2); querycaslib := fun _ => inr [] |}
  = (Raise Py.ValueError, [inr CallAbout]).
Proof.
  apply (get_cas_host_type_unknown_os world_bare _ "AIX" 2); reflexivity.
Defined.

Lemma os_name_cases (ostype name : string) :
  os_name ostype = Some name →
  (name = "linux" ∧ String.prefix "WIN" ostype = false)
  ∨ (name = "windows" ∧ String.prefix "WIN" ostype = true)
  ∨ (name = "mac" ∧ String.prefix "WIN" ostype = false).
Proof.
  unfold os_name.
  destruct (String.prefix "LIN" ostype) eqn:Hlin.
  - intros [= <-]. left. split; [done|].
    apply prefix_app in Hlin as [rest ->]. reflexivity.
  - destruct (String.prefix "WIN" ostype); [intros [= <-]; auto|].
    destruct (String.prefix "OSX" ostype); [intros [= <-]; auto | done].
Qed.

(** X10: the server type [get_cas_host_type] returns carries the markers
    the other helpers look for: it contains ".mpp", which switches
    [get_casout_lib] and [get_cas_data_lib] to the MPP variables, exactly
    when the server reports a number of nodes other than one, and it
    contains "win", which switches [load_data] to backslashes, exactly when
    the OS family starts with WIN. *)
Theorem get_cas_host_type_markers (w : World) (s : Session) (ostype server_type : string)
    (nodes : Z) :
  about s = inr (ostype, nodes) →
  rresult get_cas_host_type w s = Return server_type →
  Py.contains ".mpp" server_type = negb (nodes =? 1)
  ∧ Py.contains "win" server_type = String.prefix "WIN" ostype.
Proof.
  intros Habout. unfold rresult. rewrite get_cas_host_type_run, Habout.
  destruct (os_name ostype) as [name|] eqn:Hos; [|done].
  destruct (querycaslib s "CASUSERHDFS") as [e|items]; [done|]. cbn.
  intros [= <-].
  apply os_name_cases in Hos as [[-> ->]|[[-> ->]|[-> ->]]];
    destruct (nodes =? 1); try destruct (existsb shows_hdfs items); by vm_compute.
Qed.

Lemma get_cas_host_type_markers_witness :
  Py.contains ".mpp" "linux.mpp.nohdfs" = negb (4 =? 1)
  ∧ Py.contains "win" "linux.mpp.nohdfs" = String.prefix "WIN" "LINUX".
Proof.
  apply (get_cas_host_type_markers world_bare session_with_table "LINUX" _ 4);
    reflexivity.
Defined.

(** *** [load_data] *)

Lemma length_chars (s : string) : length (Py.chars s) = String.length s.
Proof. induction s as [|a s IH]; cbn; [done | by f_equal]. Qed.

Lemma text_chars (s : string) : Py.text (Py.chars s) = s.
Proof. apply string_of_list_ascii_of_string. Qed.

(** Scanning for one character cuts the subject into its characters. *)
Lemma scan_chr (a : ascii) (l : list ascii) (fuel : nat) (before : option ascii) :
  (length l < fuel)%nat →
  Re.scan fuel false (Re.chr a) {| Re.prev := before; Re.rest := l |}
  = map (fun c => if Ascii.eqb a c then Re.Hit [c] [] else Re.Lit c) l.
Proof.
  revert fuel before. induction l as [|c l IH]; intros fuel before Hfuel.
  - destruct fuel; [cbn in Hfuel; lia | done].
  - destruct fuel as [|fuel]; [cbn in Hfuel; lia|].
    cbn [Re.scan map]. unfold Re.match_at, Re.chr. cbn [Re.exec Re.rest].
    destruct (Ascii.eqb a c).
    + cbn [Re.rest length].
      replace (S (length l) - length l)%nat with 1%nat by lia. cbn.
      rewrite IH; [done | cbn in Hfuel; lia].
    + rewrite IH; [done | cbn in Hfuel; lia].
Qed.

(** [re.sub('/', '.', s)] as [load_data] uses it exchanges every
    slash for a dot and leaves every other character in place. *)
Theorem sub_separator (s : string) :
  Re.sub false (Re.chr "/") "." s = replace_char "/" "." s.
Proof.
  unfold Re.sub, Re.pieces, Re.start, replace_char.
  rewrite scan_chr by (rewrite length_chars; lia). f_equal.
  induction (Py.chars s) as [|c l IH]; [done|].
  cbn [map concat]. rewrite IH, (Ascii.eqb_sym c "/").
  by destruct (Ascii.eqb "/" c).
Qed.

(** The whole function, case by case. *)
Lemma load_data_run (path server_type : string) (casout : option dict)
    (w : World) (s : Session) (data_lib out_lib : string) :
  get_cas_data_lib server_type w = (Return data_lib, []) →
  get_casout_lib server_type w = (Return out_lib, []) →
  load_data path server_type casout w s
  = let path' := server_path server_type path in
    match fill_casout out_lib (separator server_type) path' casout with
    | inl e => (Raise e, [])
    | inr d =>
        match loadtable s data_lib path' d with
        | inl e => (Raise e, [inr (CallLoadtable data_lib path' d)])
        | inr res =>
            if no_table res then
              let local_path := PosixPath.join (PosixPath.dirname (st_file s)) path' in
              (match upload s local_path d with
               | inl e => Raise e
               | inr res' => Return (res', (fun _ => d) <$> casout)
               end,
               [inr (CallLoadtable data_lib path' d); inr (CallUpload local_path d)])
            else (Return (res, (fun _ => d) <$> casout),
                  [inr (CallLoadtable data_lib path' d)])
        end
    end.
Proof.
  intros Hdata Hout. unfold load_data, rbind at 1, local at 1. rewrite Hdata. cbn.
  unfold rbind at 1, local at 1. rewrite Hout. cbn.
  unfold rbind at 1, local at 1.
  destruct (fill_casout _ _ _ casout) as [e|d]; [done|]. cbn.
  unfold rbind at 1, send at 1.
  destruct (loadtable s data_lib _ d) as [e|res]; [done|]. cbn.
  destruct (no_table res); cbn; [|done].
  unfold rbind, send. cbn. by destruct (upload s _ d).
Qed.

(** X11: when the server answers [loadtable] with a table name that
    counts as true, [load_data] returns that answer and has sent this one
    action: nothing is uploaded. *)
Theorem load_data_uses_server_copy (path server_type : string) (casout : option dict)
    (w : World) (s : Session) (data_lib out_lib : string) (d res : dict) :
  get_cas_data_lib server_type w = (Return data_lib, []) →
  get_casout_lib server_type w = (Return out_lib, []) →
  fill_casout out_lib (separator server_type) (server_path server_type path) casout
  = inr d →
  loadtable s data_lib (server_path server_type path) d = inr res →
  no_table res = false →
  load_data path server_type casout w s
  = (Return (res, (fun _ => d) <$> casout),
     [inr (CallLoadtable data_lib (server_path server_type path) d)]).
Proof.
  intros Hdata Hout Hfill Hload Htable.
  rewrite (load_data_run _ _ _ _ _ _ _ Hdata Hout). cbn zeta.
  by rewrite Hfill, Hload, Htable.
Qed.

(** X12: when the answer to [loadtable] has no table name, or one that
    counts as false, [load_data] uploads the local copy found next to the
    test package ([dirname(st.__file__)] joined with the path as sent to
    the server) with the same [casout], and the outcome is the outcome of
    the upload. *)
Theorem load_data_uploads_local_copy (path server_type : string)
    (casout : option dict) (w : World) (s : Session) (data_lib out_lib : string)
    (d res : dict) :
  get_cas_data_lib server_type w = (Return data_lib, []) →
  get_casout_lib server_type w = (Return out_lib, []) →
  fill_casout out_lib (separator server_type) (server_path server_type path) casout
  = inr d →
  loadtable s data_lib (server_path server_type path) d = inr res →
  no_table res = true →
  let path' := server_path server_type path in
  let local_path := PosixPath.join (PosixPath.dirname (st_file s)) path' in
  load_data path server_type casout w s
  = (match upload s local_path d with
     | inl e => Raise e
     | inr res' => Return (res', (fun _ => d) <$> casout)
     end,
     [inr (CallLoadtable data_lib path' d); inr (CallUpload local_path d)]).
Proof.
  intros Hdata Hout Hfill Hload Htable.
  rewrite (load_data_run _ _ _ _ _ _ _ Hdata Hout). cbn zeta.
  by rewrite Hfill, Hload, Htable.
Qed.

(** X13: when [loadtable] raises, the exception leaves [load_data] as it
    is and no upload is tried. *)
Theorem load_data_loadtable_error (path server_type : string) (casout : option dict)
    (w : World) (s : Session) (data_lib out_lib : string) (d : dict) (e : Py.exn) :
  get_cas_data_lib server_type w = (Return data_lib, []) →
  get_casout_lib server_type w = (Return out_lib, []) →
  fill_casout out_lib (separator server_type) (server_path server_type path) casout
  = inr d →
  loadtable s data_lib (server_path server_type path) d = inl e →
  load_data path server_type casout w s
  = (Raise e, [inr (CallLoadtable data_lib (server_path server_type path) d)]).
Proof.
  intros Hdata Hout Hfill Hload.
  rewrite (load_data_run _ _ _ _ _ _ _ Hdata Hout). cbn zeta.
  by rewrite Hfill, Hload.
Qed.

(** X14: for a server type that contains "win", a call without a table
    name in [casout] (in particular with [casout=None]) raises [re.error]
    before anything is sent to the server: the separator is then a lone
    backslash, which [re.sub] cannot compile. *)
Theorem load_data_windows_needs_name (path server_type : string)
    (casout : option dict) (w : World) (s : Session) :
  Py.contains "win" server_type = true →
  has_key "name" (default ∅ casout) = false →
  load_data path server_type casout w s
  = (Raise (Py.OtherError "re.error: bad escape (end of pattern)"), []).
Proof.
  intros Hwin Hname.
  rewrite (load_data_run _ _ _ _ _ _ _ (get_cas_data_lib_run _ _) (get_casout_lib_run _ _)).
  cbn zeta. unfold fill_casout, separator. rewrite Hwin.
  assert (∀ d : dict, has_key "name" d = false →
            ∀ v, has_key "name" (<["caslib" := v]> d) = false) as Hins.
  { intros d Hd v. unfold has_key in *. apply bool_decide_eq_false.
    apply bool_decide_eq_false in Hd. by rewrite lookup_insert_ne. }
  destruct casout as [d|]; cbn in Hname.
  - destruct (negb (has_key "caslib" d) && negb (has_key "casLib" d));
      by rewrite ?Hins, ?Hname by done.
  - done.
Qed.

Lemma load_data_windows_needs_name_witness :
  load_data "datasources/cars.csv" "windows.smp" None world_bare session_with_table
  = (Raise (Py.OtherError "re.error: bad escape (end of pattern)"), []).
Proof. apply load_data_windows_needs_name; reflexivity. Defined.

Lemma fill_casout_default (out_lib path : string) :
  fill_casout out_lib "/" path None
  = inr (<["name" := Py.VStr (replace_char "/" "." (splitext_root path))]>
           {[ "caslib" := Py.VStr "casuser" ]}).
Proof. rewrite <- sub_separator. reflexivity. Qed.

(** X15: with [casout=None] on a server type without "win", the
    dictionary sent with [loadtable] names the library "casuser" and the
    table after the path (extension dropped, slashes turned into dots);
    the output library of the environment is not used. *)
Theorem load_data_default_casout (path server_type : string) (w : World)
    (s : Session) (data_lib : string) :
  Py.contains "win" server_type = false →
  get_cas_data_lib server_type w = (Return data_lib, []) →
  head (rlog (load_data path server_type None) w s)
  = Some (inr (CallLoadtable data_lib path
                 (<["name" := Py.VStr (replace_char "/" "." (splitext_root path))]>
                    {[ "caslib" := Py.VStr "casuser" ]}))).
Proof.
  intros Hwin Hdata. unfold rlog.
  rewrite (load_data_run _ _ _ _ _ _ _ Hdata (get_casout_lib_run _ _)).
  cbn zeta. unfold separator, server_path. rewrite Hwin, fill_casout_default.
  destruct (loadtable s data_lib path _) as [e|res]; [done|].
  by destruct (no_table res).
Qed.

Lemma load_data_default_casout_witness :
  let w := world_without_lua {[ "CASOUTLIB" := "mylib" ]} ∅ ∅ in
  head (rlog (load_data "datasources/cars.csv" "linux.smp" None) w session_with_table)
  = Some (inr (CallLoadtable "CASTestTmp" "datasources/cars.csv"
                 (<["name" := Py.VStr (replace_char "/" "."
                                        (splitext_root "datasources/cars.csv"))]>
                    {[ "caslib" := Py.VStr "casuser" ]}))).
Proof.
  intros w. apply load_data_default_casout; reflexivity.
Defined.

Lemma fill_casout_complete (out_lib sep path : string) (d : dict) :
  has_key "name" d = true →
  has_key "caslib" d || has_key "casLib" d = true →
  fill_casout out_lib sep path (Some d) = inr d.
Proof.
  intros Hname Hlib. unfold fill_casout.
  assert (negb (has_key "caslib" d) && negb (has_key "casLib" d) = false) as ->
    by (destruct (has_key "caslib" d), (has_key "casLib" d); done).
  by rewrite Hname.
Qed.

(** X16: a [casout] that already names a table and a library (under
    [caslib] or [casLib]) is what every action of the call carries, on
    every server type: [loadtable] gets it as it is, an upload that follows
    gets it as it is, and whenever the call returns, the caller's
    dictionary is as it was.  An exception of either action ends the
    call. *)
Theorem load_data_complete_casout (path server_type : string) (d : dict)
    (w : World) (s : Session) (data_lib : string) :
  has_key "name" d = true →
  has_key "caslib" d || has_key "casLib" d = true →
  get_cas_data_lib server_type w = (Return data_lib, []) →
  let path' := server_path server_type path in
  let local_path := PosixPath.join (PosixPath.dirname (st_file s)) path' in
  load_data path server_type (Some d) w s
  = match loadtable s data_lib path' d with
    | inl e => (Raise e, [inr (CallLoadtable data_lib path' d)])
    | inr res =>
        if no_table res then
          (match upload s local_path d with
           | inl e => Raise e
           | inr res' => Return (res', Some d)
           end,
           [inr (CallLoadtable data_lib path' d); inr (CallUpload local_path d)])
        else (Return (res, Some d), [inr (CallLoadtable data_lib path' d)])
    end.
Proof.
  intros Hname Hlib Hdata path' local_path.
  rewrite (load_data_run _ _ _ _ _ _ _ Hdata (get_casout_lib_run _ _)).
  cbn zeta. by rewrite (fill_casout_complete _ _ _ _ Hname Hlib).
Qed.

Lemma load_data_complete_casout_witness :
  let d : dict := {[ "name" := Py.VStr "cars"; "casLib" := Py.VStr "mylib" ]} in
  let s := session_without_table in
  let path' := server_path "windows.mpp" "datasources/cars.csv" in
  let local_path := PosixPath.join (PosixPath.dirname (st_file s)) path' in
  load_data "datasources/cars.csv" "windows.mpp" (Some d) world_bare s
  = match loadtable s "HPS" path' d with
    | inl e => (Raise e, [inr (CallLoadtable "HPS" path' d)])
    | inr res =>
        if no_table res then
          (match upload s local_path d with
           | inl e => Raise e
           | inr res' => Return (res', Some d)
           end,
           [inr (CallLoadtable "HPS" path' d); inr (CallUpload local_path d)])
        else (Return (res, Some d), [inr (CallLoadtable "HPS" path' d)])
    end.
Proof.
  intros d s.
  apply (load_data_complete_casout "datasources/cars.csv" "windows.mpp" d world_bare s);
    reflexivity.
Defined.

(** On that input the table is missing on the server and the upload
    carries the caller's dictionary. *)
Example load_data_complete_casout_upload :
  let d : dict := {[ "name" := Py.VStr "cars"; "casLib" := Py.VStr "mylib" ]} in
  load_data "datasources/cars.csv" "windows.mpp" (Some d) world_bare session_without_table
  = (Return ({[ "tableName" := Py.VStr "cars" ]}, Some d),
     [inr (CallLoadtable "HPS" ("datasources" ++ String backslash "cars.csv") d);
      inr (CallUpload ("/site/swat/tests/datasources" ++ String backslash "cars.csv") d)]).
Proof. by vm_compute. Qed.

Lemma load_data_uses_server_copy_witness :
  let d : dict := <["name" := Py.VStr "datasources.cars"]> {[ "caslib" := Py.VStr "casuser" ]} in
  load_data "datasources/cars.csv" "linux.smp" None world_bare session_with_table
  = (Return ({[ "tableName" := Py.VStr "datasources.cars" ]}, (fun _ : dict => d) <$> None),
     [inr (CallLoadtable "CASTestTmp" (server_path "linux.smp" "datasources/cars.csv") d)]).
Proof.
  intros d.
  apply (load_data_uses_server_copy "datasources/cars.csv" "linux.smp" None
           world_bare session_with_table "CASTestTmp" "CASUSER" d);
    reflexivity.
Defined.

Lemma load_data_uploads_local_copy_witness :
  let d : dict := <["name" := Py.VStr "datasources.cars"]> {[ "caslib" := Py.VStr "casuser" ]} in
  load_data "datasources/cars.csv" "linux.smp" None world_bare session_without_table
  = (match upload session_without_table
             (PosixPath.join (PosixPath.dirname (st_file session_without_table))
                             (server_path "linux.smp" "datasources/cars.csv")) d with
     | inl e => Raise e
     | inr res' => Return (res', (fun _ : dict => d) <$> None)
     end,
     [inr (CallLoadtable "CASTestTmp" (server_path "linux.smp" "datasources/cars.csv") d);
      inr (CallUpload
             (PosixPath.join (PosixPath.dirname (st_file session_without_table))
                             (server_path "linux.smp" "datasources/cars.csv")) d)]).
Proof.
  intros d.
  apply (load_data_uploads_local_copy "datasources/cars.csv" "linux.smp" None
           world_bare session_without_table "CASTestTmp" "CASUSER" d ∅);
    reflexivity.
Defined.

Lemma load_data_loadtable_error_witness :
  let d : dict := <["name" := Py.VStr "datasources.cars"]> {[ "caslib" := Py.VStr "casuser" ]} in
  let s := {| st_file := ""; loadtable := fun _ _ _ => inl (Py.OtherError "SWATError");
              upload := fun _ _ => inr ∅; about := inl Py.OSError;
              querycaslib := fun _ => inr [] |} in
  load_data "datasources/cars.csv" "linux.smp" None world_bare s
  = (Raise (Py.OtherError "SWATError"),
     [inr (CallLoadtable "CASTestTmp" (server_path "linux.smp" "datasources/cars.csv") d)]).
Proof.
  intros d s.
  apply (load_data_loadtable_error "datasources/cars.csv" "linux.smp" None
           world_bare s "CASTestTmp" "CASUSER" d);
    reflexivity.
Defined.

(** *** More on [_read_casrc] and [get_host_port_proto] *)

(** The outcome of the last stage of [_read_casrc], case by case. *)
Lemma read_settings_run (lg : globals) (w : World) :
  read_settings lg w
  = match lg "cashost", lg "casport" ≫= (fun p => match Py.int p with
                                                    | inr n => Some n
                                                    | inl _ => None
                                                    end) with
    | Some host, Some port =>
        (Return (Some (Py.str host), Some port,
                 match lg "casprotocol" with
                 | Some v => if Py.truthy v then Some (Py.str v) else None
                 | None => None
                 end), [])
    | _, _ => (Raise (Py.NameError "sys"), [])
    end.
Proof.
  unfold read_settings, getattr.
  destruct (lg "cashost") as [host|]; [|reflexivity].
  destruct (lg "casport") as [p|]; [|reflexivity].
  cbv -[Py.int Py.str Py.truthy].
  destruct (Py.int p) as [e|n]; [reflexivity|].
  destruct (lg "casprotocol") as [v|]; [|reflexivity].
  by destruct (Py.truthy v).
Qed.

Lemma read_settings_log (lg : globals) (w : World) : log (read_settings lg) w = [].
Proof.
  unfold log. rewrite read_settings_run.
  destruct (lg "cashost"); [|done]. by destruct (_ ≫= _).
Qed.

Lemma _read_casrc_not_regular (w : World) (path : string) :
  is_file w path = false →
  _read_casrc path w = (Return (None, None, None), [EvStat path]).
Proof.
  intros Hfile. unfold _read_casrc, bind at 1, isfile.
  unfold bind at 1 2, emit, ask, ret. cbn. by rewrite Hfile.
Qed.

(** X17: the last stage of [_read_casrc] returns exactly when [cashost]
    can be read and [casport] can be read and converted by [int]; the host
    is then [str] of the value, and the protocol is [str] of [casprotocol]
    when that can be read and counts as true, and [None] otherwise.  In
    every other case, a port that [int] rejects included, the caller gets
    the [NameError] for [sys].  Nothing is ever written to the standard
    error stream, and [SystemExit] is never raised. *)
Theorem read_settings_outcome (lg : globals) (w : World) :
  read_settings lg w
  = match lg "cashost", lg "casport" ≫= (fun p => match Py.int p with
                                                    | inr n => Some n
                                                    | inl _ => None
                                                    end) with
    | Some host, Some port =>
        (Return (Some (Py.str host), Some port,
                 match lg "casprotocol" with
                 | Some v => if Py.truthy v then Some (Py.str v) else None
                 | None => None
                 end), [])
    | _, _ => (Raise (Py.NameError "sys"), [])
    end.
Proof. apply read_settings_run. Qed.

(** X18: [_read_casrc] on a path that is not a regular file returns three
    [None]s after this one look at the file system: nothing is imported,
    run or opened. *)
Theorem _read_casrc_not_a_file (w : World) (path : string) :
  is_file w path = false →
  _read_casrc path w = (Return (None, None, None), [EvStat path]).
Proof. apply _read_casrc_not_regular. Qed.

Lemma _read_casrc_not_a_file_witness :
  _read_casrc "/work" world_bare = (Return (None, None, None), [EvStat "/work"]).
Proof. apply _read_casrc_not_a_file. reflexivity. Defined.

(** X19: when [lupa] can be imported, [_read_casrc] on a regular file
    uses it alone: it evaluates [dofile("path")], lets an error of that
    evaluation through to the caller, and neither runs [lua] nor opens the
    file itself. *)
Theorem _read_casrc_with_lupa (w : World) (path : string)
    (lua_eval : string -> Py.exn + globals) :
  is_file w path = true →
  lupa w = Some lua_eval →
  let code := ("dofile(" ++ quoted path ++ ")")%string in
  _read_casrc path w
  = (match lua_eval code with
     | inl e => Raise e
     | inr lg => result (read_settings lg) w
     end,
     [EvStat path; EvImportLupa; EvLuaEval code]).
Proof.
  intros Hfile Hlupa code. rewrite run_eta. f_equal.
  - unfold _read_casrc. autorewrite with run. rewrite Hfile. cbn [negb].
    autorewrite with run. rewrite Hlupa. autorewrite with run.
    by destruct (lua_eval _).
  - unfold _read_casrc. rewrite log_bind, result_isfile, Hfile. cbn [negb].
    rewrite !log_bind, result_emit, result_ask, Hlupa. autorewrite with run.
    fold code. destruct (lua_eval code) as [e|lg]; [done|].
    by rewrite read_settings_log.
Qed.

Lemma _read_casrc_with_lupa_witness :
  let w := {| environ := ∅; getcwd := "/work"; getpwuid_dir := None;
              getpwnam_dir := fun _ => None;
              stat := fun _ => Some (1, true);
              file_text := fun _ => None;
              read_error := fun _ => Py.OSError;
              lupa := Some (fun _ => inl (Py.OtherError "LuaError"));
              check_output := fun _ => None;
              eval_expr := fun _ _ => inl Py.TypeError |} in
  let code := ("dofile(" ++ quoted "/work/.casrc" ++ ")")%string in
  _read_casrc "/work/.casrc" w
  = (match (fun _ : string => @inl Py.exn globals (Py.OtherError "LuaError")) code with
     | inl e => Raise e
     | inr lg => result (read_settings lg) w
     end,
     [EvStat "/work/.casrc"; EvImportLupa; EvLuaEval code]).
Proof.
  intros w code.
  apply (_read_casrc_with_lupa w "/work/.casrc"); reflexivity.
Defined.



(** The settings of that output: the port text is converted by [int]. *)
Example lua_output_settings (w : World) :
  result (read_settings
            (LuaGlobals (set_strings
               (Re.findall2 true output_re
                  ("cashost a.b.c" ++ nl ++ "casport 5570"))))) w
  = Return (Some "a.b.c", Some 5570, None).
Proof. by vm_compute. Qed.

(** X21: when the candidate in the working directory is not a regular
    file and the one in the home directory exists without being a regular
    file (a directory, say), [get_host_port_proto] hands it to
    [_read_casrc] and returns three [None]s: what the environment gave is
    lost and the candidate under [u:] is not looked at. *)
Theorem home_candidate_not_a_file (fuel : nat) (w : World) (port : option Z) :
  environ_port w = inr port →
  truthy_str (environ w !! "CASHOST") && truthy_int port = false →
  is_Some (stat w (PosixPath.dirname (homepath_of w))) →
  is_Some (stat w (PosixPath.dirname (cfgfile_of w))) →
  is_file w (cfgfile_of w) = false →
  path_exists w (homepath_of w) = true →
  is_file w (homepath_of w) = false →
  result (get_host_port_proto (S fuel)) w = Return (None, None, None).
Proof.
  intros Hport Hfalse [sh Hhome] [sc Hcwd] Hcfg Hexists Hfile.
  rewrite get_host_port_proto_result, Hport, Hfalse, search_loop_one_turn.
  unfold selected_casrc. rewrite Hcfg, Hhome, Hcwd, Hexists.
  unfold result. by rewrite (_read_casrc_not_regular _ _ Hfile).
Qed.

Lemma home_candidate_not_a_file_witness :
  result (get_host_port_proto 1)
         (world_without_lua {[ "CASHOST" := "envhost" ]}
            (<["/home/u/.casrc" := (3, false)]> only_directories) ∅)
  = Return (None, None, None).
Proof.
  apply (home_candidate_not_a_file 0 _ None).
  - reflexivity.
  - reflexivity.
  - vm_compute. eauto.
  - vm_compute. eauto.
  - reflexivity.
  - reflexivity.
  - reflexivity.
Defined.

(** X22: when the environment does not settle host and port, the
    candidate in the working directory is not a regular file, and the home
    directory or the working directory cannot be examined, the search
    loop's [samefile] raises [OSError] and [get_host_port_proto] returns
    nothing, whatever candidates exist in the home directory or under
    [u:]. *)
Theorem search_needs_both_directories (fuel : nat) (w : World) (port : option Z) :
  environ_port w = inr port →
  truthy_str (environ w !! "CASHOST") && truthy_int port = false →
  is_file w (cfgfile_of w) = false →
  stat w (PosixPath.dirname (homepath_of w)) = None
  ∨ stat w (PosixPath.dirname (cfgfile_of w)) = None →
  result (get_host_port_proto (S fuel)) w = Raise Py.OSError.
Proof.
  intros Hport Hfalse Hcfg Hmissing.
  rewrite get_host_port_proto_result, Hport, Hfalse, search_loop_one_turn, Hcfg.
  destruct Hmissing as [->| ->]; [done|].
  by destruct (stat w (PosixPath.dirname (homepath_of w))).
Qed.

Lemma search_needs_both_directories_witness :
  result (get_host_port_proto 1) world_missing_home = Raise Py.OSError.
Proof.
  apply (search_needs_both_directories 0 world_missing_home None).
  - reflexivity.
  - reflexivity.
  - reflexivity.
  - left. reflexivity.
Defined.

(** X23: the [while] loop of [get_host_port_proto] never takes a second
    turn: with any positive fuel the function gives what it gives with
    fuel one, in every world. *)
Theorem get_host_port_proto_one_turn (fuel : nat) (w : World) :
  result (get_host_port_proto (S fuel)) w = result (get_host_port_proto 1) w.
Proof. by rewrite !get_host_port_proto_result. Qed.

Lemma chars_app (s t : string) : Py.chars (s ++ t) = (Py.chars s ++ Py.chars t)%list.
Proof.
  induction s as [|a s IH]; [reflexivity|].
  change (Py.chars (String a s ++ t)) with (a :: Py.chars (s ++ t)).
  by rewrite IH.
Qed.

(** X24: [eval] in the manual scrape gives back the text between double
    quotes and leaves [lg] alone, in every scope, for every text without a
    double quote, a backslash, a line break, a carriage return or a NUL
    character. *)
Theorem py_eval_quoted (w : World) (sc : scope) (s : string) :
  forallb plain_char (Py.chars s) = true →
  py_eval sc (quoted s) w = (Return (Py.VStr s, sc_lg sc), []).
Proof.
  intros Hplain. unfold py_eval, quoted.
  change (Py.chars (String dquote (s ++ String dquote "")))
    with (dquote :: Py.chars (s ++ String dquote "")).
  change (int_literal (dquote :: Py.chars (s ++ String dquote ""))) with (@None Z).
  cbn [str_literal]. change (Ascii.eqb dquote dquote || Ascii.eqb dquote "'") with true.
  cbn iota. rewrite chars_app. change (Py.chars (String dquote "")) with [dquote].
  rewrite rev_app_distr. cbn [rev app]. rewrite Ascii.eqb_refl. cbn [andb].
  change (forallb _ (rev (Py.chars s))) with (forallb plain_char (rev (Py.chars s))).
  assert (forallb plain_char (rev (Py.chars s)) = true) as ->.
  { apply forallb_forall. intros c Hc. apply in_rev in Hc.
    by apply (proj1 (forallb_forall _ _) Hplain). }
  by rewrite rev_involutive, text_chars.
Qed.

Lemma py_eval_quoted_witness :
  let sc := {| sc_path := "/work/.casrc"; sc_config := "cashost = " ++ quoted "a.b.c";
               sc_done := []; sc_name := "cashost"; sc_lg := ∅ |} in
  py_eval sc (quoted "a.b.c") world_bare = (Return (Py.VStr "a.b.c", sc_lg sc), []).
Proof. intros sc. apply py_eval_quoted. reflexivity. Defined.

(** *** Comments in the file read by hand *)

Lemma without_comments_skip_line (l : list ascii) :
  without_comments true l = without_comments false (skip_line l).
Proof.
  induction l as [|a l IH]; [done|]. cbn [without_comments skip_line].
  destruct (Ascii.eqb a Re.newline) eqn:Ha; [|done].
  apply Ascii.eqb_eq in Ha as ->. by destruct l.
Qed.

Lemma length_skip_line (l : list ascii) : (length (skip_line l) <= length l)%nat.
Proof.
  induction l as [|a l IH]; [done|]. cbn [skip_line].
  destruct (Ascii.eqb a Re.newline); cbn; lia.
Qed.

(** The lazy [.*?$] stops at the end of the line. *)
Lemma exec_rest_of_line {R} (k : Re.cursor → Re.captures → option R)
    (l : list ascii) (p : option ascii) (cs : Re.captures) :
  ∃ p', Re.exec true (Re.Star false Re.dot) (Re.exec true Re.Eol k)
          {| Re.prev := p; Re.rest := l |} cs
        = k {| Re.prev := p'; Re.rest := skip_line l |} cs.
Proof.
  revert p. induction l as [|a l IH]; intros p.
  - exists p. reflexivity.
  - destruct (Ascii.eqb a Re.newline) eqn:Ha.
    + exists p. cbn. rewrite Ha. cbn. by destruct (k _ cs).
    + destruct (IH (Some a)) as [p' Hp']. exists p'.
      cbn [skip_line]. rewrite Ha, <- Hp'.
      cbn. rewrite Ha, Nat.leb_refl. cbn. reflexivity.
Qed.

(** At two dashes the pattern matches through the end of the line. *)
Lemma match_at_comment (l : list ascii) (p : option ascii) :
  ∃ p', Re.match_at true comment_re {| Re.prev := p; Re.rest := "-" :: "-" :: l |}%char
        = Some ({| Re.prev := p'; Re.rest := skip_line l |}, []).
Proof.
  destruct (exec_rest_of_line (fun c' cs => Some (c', cs)) l (Some "-"%char) [])
    as [p' Hp'].
  exists p'. exact Hp'.
Qed.

(** Anywhere else it does not match. *)
Lemma match_at_no_comment (a : ascii) (l : list ascii) (p : option ascii) :
  Ascii.eqb a "-" && from_option (fun b => Ascii.eqb b "-") false (head l) = false →
  Re.match_at true comment_re {| Re.prev := p; Re.rest := a :: l |} = None.
Proof.
  intros Hno. unfold Re.match_at, comment_re, Re.chr.
  cbn [Re.exec Re.rest]. rewrite (Ascii.eqb_sym "-" a).
  destruct (Ascii.eqb a "-"); [|done]. cbn [andb] in Hno.
  destruct l as [|b l]; [done|]. cbn [head from_option] in Hno.
  cbn [Re.rest]. by rewrite (Ascii.eqb_sym "-" b), Hno.
Qed.

Lemma scan_comments (fuel : nat) (l : list ascii) (p : option ascii) :
  (length l < fuel)%nat →
  concat (map (fun piece => match piece with
                            | Re.Hit _ _ => Py.chars " "
                            | Re.Lit a => [a]
                            end)
              (Re.scan fuel true comment_re {| Re.prev := p; Re.rest := l |}))
  = without_comments false l.
Proof.
  revert l p. induction fuel as [|fuel IH]; intros l p Hfuel; [lia|].
  destruct l as [|a l]; [done|].
  destruct (Ascii.eqb a "-" && from_option (fun b => Ascii.eqb b "-") false (head l)) eqn:Hdash.
  - apply andb_true_iff in Hdash as [Ha Hb]. apply Ascii.eqb_eq in Ha as ->.
    destruct l as [|b l]; [done|]. cbn [head from_option] in Hb.
    apply Ascii.eqb_eq in Hb as ->.
    destruct (match_at_comment l p) as [p' Hp'].
    cbn [Re.scan]. rewrite Hp'. cbn [Re.rest].
    pose proof (length_skip_line l) as Hlen.
    destruct (Nat.eqb_spec (length ("-" :: "-" :: l)%char - length (skip_line l)) 0)
      as [Hzero|_]; [cbn [length] in Hzero; lia|].
    cbn [map concat]. rewrite IH by (cbn [length] in Hfuel; lia).
    cbn [without_comments]. change (Ascii.eqb "-" "-") with true. cbn [andb].
    by rewrite without_comments_skip_line.
  - cbn [Re.scan]. rewrite (match_at_no_comment a l p Hdash). cbn [Re.rest map concat].
    rewrite IH by (cbn [length] in Hfuel; lia).
    cbn [without_comments app]. destruct l as [|b l]; [done|].
    cbn [head from_option] in Hdash. by rewrite Hdash.
Qed.

(** X25: the comment removal of the manual scrape,
    [re.sub(r'\-\-.*?$', r' ', text, flags=re.M)], does to every text what
    removing comments by hand does: two dashes and everything after them on
    the line are replaced by one space, the line break and every other
    character stay as they are. *)
Theorem comments_removed_by_line (content : string) :
  Re.sub true comment_re " " content
  = Py.text (without_comments false (Py.chars content)).
Proof.
  unfold Re.sub, Re.pieces, Re.start. f_equal.
  apply scan_comments. rewrite length_chars. lia.
Qed.



(** *** A port written by [str] and read by [int] *)

Lemma pretty_N_char_digit (d : N) :
  (d < 10)%N →
  Py.isdigit (pretty_N_char d) = true ∧ Py.digit_value (pretty_N_char d) = Z.of_N d.
Proof.
  intros Hd.
  assert (d = 0 ∨ d = 1 ∨ d = 2 ∨ d = 3 ∨ d = 4 ∨ d = 5 ∨ d = 6 ∨ d = 7 ∨ d = 8
          ∨ d = 9)%N as [->|[->|[->|[->|[->|[->|[->|[->|[->| ->]]]]]]]]] by lia;
    done.
Qed.

Lemma digits_value_pretty_N_go (x : N) (s : string) (after_digit : bool) :
  (0 < x)%N →
  Py.digits_value after_digit 0 (Py.chars (pretty_N_go x s))
  = Py.digits_value true (Z.of_N x) (Py.chars s).
Proof.
  revert s after_digit. induction (N.lt_wf_0 x) as [x _ IH]. intros s after_digit Hx.
  rewrite pretty_N_go_step by done.
  destruct (pretty_N_char_digit (x `mod` 10)) as [Hdigit Hvalue];
    [by apply N.mod_lt|].
  pose proof (N.div_mod x 10 ltac:(done)) as Hx10.
  destruct (decide (x `div` 10 = 0)%N) as [Hzero|Hpos].
  - rewrite Hzero, pretty_N_go_0. rewrite Hzero in Hx10.
    change (Py.chars (String ?c s)) with (c :: Py.chars s).
    cbn [Py.digits_value]. rewrite Hdigit, Hvalue. f_equal.
    generalize dependent (x `mod` 10)%N. intros; lia.
  - rewrite IH; [|by apply N.div_lt|by apply N.neq_0_lt_0].
    change (Py.chars (String ?c s)) with (c :: Py.chars s).
    cbn [Py.digits_value]. rewrite Hdigit, Hvalue. f_equal.
    clear IH Hpos. generalize dependent (x `mod` 10)%N.
    generalize dependent (x `div` 10)%N. intros; lia.
Qed.

Lemma pretty_N_go_digits (x : N) (s : string) :
  Forall (fun c => Py.isdigit c = true) (Py.chars s) →
  Forall (fun c => Py.isdigit c = true) (Py.chars (pretty_N_go x s)).
Proof.
  revert s. induction (N.lt_wf_0 x) as [x _ IH]. intros s Hs.
  destruct (decide (x = 0)%N) as [->|Hpos]; [by rewrite pretty_N_go_0|].
  rewrite pretty_N_go_step by lia. apply IH; [apply N.div_lt; lia|].
  change (Py.chars (String ?c s)) with (c :: Py.chars s).
  constructor; [|done]. apply pretty_N_char_digit. by apply N.mod_lt.
Qed.

Lemma isdigit_not_space (c : ascii) : Py.isdigit c = true → Py.c_isspace c = false.
Proof.
  unfold Py.isdigit, Py.c_isspace. intros [Hlo Hhi]%andb_true_iff.
  apply Nat.leb_le in Hlo, Hhi. apply orb_false_iff. split.
  - apply andb_false_iff. right. apply Nat.leb_gt. lia.
  - apply Nat.eqb_neq. lia.
Qed.

Lemma lstrip_chars_id (p : ascii → bool) (l : list ascii) :
  Forall (fun c => p c = false) l → Py.lstrip_chars p l = l.
Proof. destruct 1 as [|c l Hc _]; [done|]. cbn. by rewrite Hc. Qed.

Lemma strip_chars_id (p : ascii → bool) (l : list ascii) :
  Forall (fun c => p c = false) l →
  Py.rstrip_chars p (Py.lstrip_chars p l) = l.
Proof.
  intros Hl. rewrite (lstrip_chars_id p l Hl). unfold Py.rstrip_chars.
  rewrite lstrip_chars_id, rev_involutive; [done|]. by apply List.Forall_rev.
Qed.

Lemma int_of_str_pretty_positive (p : positive) :
  ∃ c l, Py.chars (pretty_N_go (Npos p) "") = c :: l
         ∧ Py.isdigit c = true
         ∧ Forall (fun c => Py.c_isspace c = false) (c :: l)
         ∧ Py.digits_value false 0 (c :: l) = Some (Zpos p).
Proof.
  pose proof (digits_value_pretty_N_go (Npos p) "" false ltac:(lia)) as Hvalue.
  pose proof (pretty_N_go_digits (Npos p) "" ltac:(constructor)) as Hdigits.
  destruct (Py.chars (pretty_N_go (Npos p) "")) as [|c l]; [done|].
  exists c, l. split; [done|]. split; [by inversion Hdigits|]. split; [|done].
  eapply Forall_impl; [exact Hdigits|]. apply isdigit_not_space.
Qed.

(** [int(str(n))] is [n]. *)
Lemma int_str_round_trip (n : Z) : Py.int (Py.VStr (Py.str (Py.VInt n))) = inr n.
Proof.
  cbn [Py.int Py.str]. unfold Py.str_of_int.
  destruct n as [|p|p]; [done|..];
    destruct (int_of_str_pretty_positive p) as (c & l & Hchars & Hc & Hspace & Hvalue).
  - change (pretty (Zpos p)) with (pretty_N_go (Npos p) "").
    unfold Py.int_of_str. rewrite Hchars, (strip_chars_id _ _ Hspace).
    destruct (Ascii.eqb_spec c "-") as [->|_]; [done|].
    destruct (Ascii.eqb_spec c "+") as [->|_]; [done|].
    by rewrite Hvalue.
  - change (pretty (Zneg p)) with (String "-" (pretty_N_go (Npos p) "")).
    unfold Py.int_of_str.
    change (Py.chars (String "-" ?s)) with ("-"%char :: Py.chars s).
    rewrite Hchars, strip_chars_id by (by constructor).
    change (Ascii.eqb "-" "-") with true. cbn iota. by rewrite Hvalue.
Qed.

(** X27: a port written into the environment the way [str] writes a number
    comes back as that number: with a non-empty [CASHOST] and [CASPORT] set
    to [str(n)] for a port [n] other than zero, [get_host_port_proto]
    returns that host and [n] without looking at the file system. *)
Theorem port_written_by_str (fuel : nat) (w : World) (host : string) (n : Z) :
  environ w !! "CASHOST" = Some host → host ≠ "" →
  environ w !! "CASPORT" = Some (Py.str (Py.VInt n)) → n ≠ 0 →
  get_host_port_proto fuel w
  = (Return (Some host, Some n, environ w !! "CASPROTOCOL"), []).
Proof.
  intros Hhost Hne Hport Hnz.
  rewrite (get_host_port_proto_from_environ fuel w (Some n)).
  - by rewrite Hhost.
  - unfold environ_port. by rewrite Hport, int_str_round_trip.
  - rewrite Hhost. cbn. apply andb_true_iff. split; apply negb_true_iff.
    + by apply String.eqb_neq.
    + by apply Z.eqb_neq.
Qed.

Lemma port_written_by_str_witness :
  let w := world_without_lua
             {[ "CASHOST" := "a.b.c"; "CASPORT" := Py.str (Py.VInt 5570) ]} ∅ ∅ in
  get_host_port_proto 0 w
  = (Return (Some "a.b.c", Some 5570, environ w !! "CASPROTOCOL"), []).
Proof.
  intros w. apply (port_written_by_str 0 w "a.b.c" 5570);
    [reflexivity | discriminate | reflexivity | lia].
Defined.
